(** * Crisp product scraper: a shallow embedding of [scrape.py]

    The development follows the source file top to bottom: the text
    primitives Python provides ([str.replace], [str.lower], [in], the two
    regular expressions), the dynamically typed values stored in a product
    dict, then the methods of [CrispScraper] in source order.

    Modelling conventions.
    - A Python [str] is a [string] holding the bytes of its UTF-8 encoding;
      the euro sign is the three-byte string ["€"].  The class [\d] and
      [str.lower] are modelled on the ASCII range.
    - A Python [float] obtained from a price token is the exact rational
      the token denotes, kept in lowest terms ([Qred]) so that numeric
      equality is Leibniz equality.  Rounding to binary64 is not modelled;
      [float] is monotone, so [min], [max] and the order of prices are those
      of the exact values.
    - A [dict] is a [gmap string pyval]; exceptions are the [Raise] branch of
      [result].
    - The libraries the scraper calls (requests, BeautifulSoup, json,
      urllib) are not part of the repository: a response is the already
      parsed [page], an element is what the scraper reads from it. *)

From Stdlib Require Import ZArith QArith Lqa String Ascii List Lia.
From Stdlib Require Import Sorting.Sorted Permutation.
From stdpp Require Import base option gmap strings list sorting.

Open Scope string_scope.
Open Scope list_scope.

(** ** Text primitives *)

Definition is_digit (c : ascii) : bool :=
  (48 <=? nat_of_ascii c)%nat && (nat_of_ascii c <=? 57)%nat.

(** The longest run of digits at the head of [s], and what follows it:
    the greedy [\d*]. *)
Fixpoint span_digits (s : string) : string * string :=
  match s with
  | EmptyString => (EmptyString, EmptyString)
  | String c s' =>
      if is_digit c
      then let '(ds, rest) := span_digits s' in (String c ds, rest)
      else (EmptyString, s)
  end.

Fixpoint all_digits (s : string) : bool :=
  match s with
  | EmptyString => true
  | String c s' => is_digit c && all_digits s'
  end.

Fixpoint has_digit (s : string) : bool :=
  match s with
  | EmptyString => false
  | String c s' => is_digit c || has_digit s'
  end.

Definition digit_val (c : ascii) : N := N_of_ascii c - 48.

Fixpoint digits_val (acc : N) (s : string) : N :=
  match s with
  | EmptyString => acc
  | String c s' => digits_val (10 * acc + digit_val c) s'
  end.

(** [int(ds)] for a string of decimal digits. *)
Definition py_int (ds : string) : Z := Z.of_N (digits_val 0 ds).

(** [s.replace(old, new)] for a non-empty [old]: occurrences are replaced
    left to right and do not overlap.  [skip] counts the characters of the
    occurrence just replaced that are still to be dropped. *)
Fixpoint replace_from (old new : string) (skip : nat) (s : string) : string :=
  match s with
  | EmptyString => EmptyString
  | String c s' =>
      match skip with
      | S k => replace_from old new k s'
      | O =>
          if String.prefix old s
          then new +:+ replace_from old new (String.length old - 1) s'
          else String c (replace_from old new 0 s')
      end
  end.

Definition replace (old new s : string) : string := replace_from old new 0 s.

Definition lower_ascii (c : ascii) : ascii :=
  let n := nat_of_ascii c in
  if (65 <=? n)%nat && (n <=? 90)%nat then ascii_of_nat (n + 32) else c.

(** [s.lower()] *)
Fixpoint lower (s : string) : string :=
  match s with
  | EmptyString => EmptyString
  | String c s' => String (lower_ascii c) (lower s')
  end.

(** [sub in s] *)
Fixpoint contains (sub s : string) : bool :=
  String.prefix sub s ||
  match s with
  | EmptyString => false
  | String _ s' => contains sub s'
  end.

(** The pattern [(\d+)%] anchored at the head of [s]; the result is group 1.  Once the
    greedy [\d+] has taken the whole run, backtracking cannot help: a
    shorter run is followed by a digit, never by the percent sign. *)
Definition re_discount_at (s : string) : option string :=
  match span_digits s with
  | (String c ds, String "%" _) => Some (String c ds)
  | _ => None
  end.

(** [re.search(r'(\d+)%', s)]: the leftmost position where the pattern
    matches. *)
Fixpoint re_search_discount (s : string) : option string :=
  match s with
  | EmptyString => None
  | String _ s' =>
      match re_discount_at s with
      | Some ds => Some ds
      | None => re_search_discount s'
      end
  end.

Definition is_sep (c : ascii) : bool :=
  if ascii_dec c "," then true else if ascii_dec c "." then true else false.

(** The pattern [\d+ [,.]? \d*] (one group) anchored at the head of [s]; every part is greedy and
    the pattern matches as soon as one digit is there. *)
Definition re_price_at (s : string) : option string :=
  match span_digits s with
  | (EmptyString, _) => None
  | (d1, r1) =>
      match r1 with
      | String c r2 =>
          if is_sep c
          then Some (d1 +:+ String c (fst (span_digits r2)))
          else Some (d1 +:+ fst (span_digits r1))
      | EmptyString => Some d1
      end
  end.

(** [re.search] with that pattern: the leftmost position where it matches. *)
Fixpoint re_search_price (s : string) : option string :=
  match s with
  | EmptyString => None
  | String _ s' =>
      match re_price_at s with
      | Some tok => Some tok
      | None => re_search_price s'
      end
  end.

(** The value of the decimal literal [d1.d2], in lowest terms. *)
Definition decimal (d1 d2 : string) : Q :=
  Qred (Z.of_N (digits_val 0 (d1 +:+ d2))
        # Z.to_pos (10 ^ Z.of_nat (String.length d2))).

(** [float(tok)] on the literals [digits], [digits.] and [digits.digits];
    [None] is the [ValueError] Python raises on anything else of this
    shape, a comma in particular.  The tokens [extract_price] passes are
    always accepted ([extract_price_no_ValueError] below). *)
Definition py_float (tok : string) : option Q :=
  match span_digits tok with
  | (EmptyString, _) => None
  | (d1, EmptyString) => Some (decimal d1 EmptyString)
  | (d1, String c r) =>
      if ascii_dec c "."
      then match span_digits r with
           | (d2, EmptyString) => Some (decimal d1 d2)
           | _ => None
           end
      else None
  end.

(** ** [CrispScraper.extract_price] *)

Definition normalise (price_text : string) : string :=
  replace "," "." (replace "€" EmptyString price_text).

Definition extract_price (price_text : string) : option Q :=
  match price_text with
  | EmptyString => None
  | _ =>
      match re_search_price (normalise price_text) with
      | Some tok => py_float tok
      | None => None
      end
  end.

(** ** Python values, exceptions, dicts *)

#[warnings="-register-all"]
Inductive pyval :=
| VNone
| VBool (b : bool)
| VInt (z : Z)
| VFloat (q : Q)
| VStr (s : string)
| VList (l : list pyval)
| VDict (d : list (string * pyval)).

Inductive exn := TypeError | AttributeError | KeyError | JSONDecodeError.

Inductive result (A : Type) :=
| Ok (a : A)
| Raise (e : exn).
Arguments Ok {A} a.
Arguments Raise {A} e.

#[global] Instance result_ret : MRet result := fun A a => Ok a.
#[global] Instance result_bind : MBind result := fun A B f m =>
  match m with
  | Ok a => f a
  | Raise e => Raise e
  end.

(** A product record is a [dict] with string keys. *)
Abbreviation dict := (gmap string pyval).

(** Truth value of an object, as [if], [and], [or] and [not] test it. *)
Definition truthy (v : pyval) : bool :=
  match v with
  | VNone => false
  | VBool b => b
  | VInt z => negb (z =? 0)%Z
  | VFloat q => negb (Qeq_bool q 0)
  | VStr s => negb (String.eqb s EmptyString)
  | VList l => match l with [] => false | _ => true end
  | VDict d => match d with [] => false | _ => true end
  end.

(** [d.get(k, dflt)] and [d.get(k)] *)
Definition dict_get (d : dict) (k : string) (dflt : pyval) : pyval :=
  default dflt (d !! k).
Definition dict_get_none (d : dict) (k : string) : pyval := dict_get d k VNone.

(** [a + b] where the left operand is a [str]: any other right operand,
    [None] included, raises [TypeError]; so does a left operand that is not
    a [str] when the right one is. *)
Definition py_add_str (a b : pyval) : result pyval :=
  match a, b with
  | VStr x, VStr y => Ok (VStr (x +:+ y))
  | _, _ => Raise TypeError
  end.

(** [s.lower()] is only called on the [str] the concatenation returned. *)
Definition py_lower (v : pyval) : result string :=
  match v with
  | VStr s => Ok (lower s)
  | _ => Raise AttributeError
  end.

(** ** [CrispScraper.is_on_sale] *)

Definition sale_keywords : list string :=
  ["korting"; "sale"; "aanbieding"; "actie"; "voordeel";
   "nu voor"; "was"; "bespaar"; "nu"; "%"].

(** The method mutates [product] (it may set [discount_percentage]): it
    returns its verdict together with the dict as it leaves it. *)
Definition is_on_sale (product : dict) : result (bool * dict) :=
  t ← py_add_str (dict_get product "title" (VStr EmptyString)) (VStr " ");
  t ← py_add_str t (dict_get product "description" (VStr EmptyString));
  text_lower ← py_lower t;
  match re_search_discount text_lower with
  | Some ds => Ok (true, <["discount_percentage" := VInt (py_int ds)]> product)
  | None =>
      if existsb (fun keyword => contains keyword text_lower) sale_keywords
      then Ok (true, product)
      else if truthy (dict_get_none product "original_price")
              && truthy (dict_get_none product "sale_price")
      then Ok (true, product)
      else Ok (false, product)
  end.

(** ** What the scraper reads from the parsed document

    An [element] is a container as [scrape_product_from_element] sees it
    through BeautifulSoup: the stripped text of the first title-like
    sub-element, the stripped texts of the price candidates in the order of
    the three concatenated [find_all] calls, the stripped text of the
    description sub-element, the [src] and [data-src] attributes of the
    first [img], the [href] of the first [a]. *)

Record img := { src : option string; data_src : option string }.

Record element := {
  title_elem : option string;
  price_elements : list string;
  desc_elem : option string;
  img_elem : option img;
  link_elem : option (option string)
}.

(** A [script type="application/ld+json"] block, by what
    [json.loads(script.string)] does on it: [script.string] is [None] for a
    tag without a single text child and [json.loads(None)] raises
    [TypeError]; text that is not JSON raises [JSONDecodeError]; otherwise
    the parsed value is returned. *)
Inductive ld_block :=
| LdNoString
| LdInvalid
| LdJson (data : pyval).

(** A response whose text has been parsed: the structured-data blocks in
    document order, the elements each CSS selector matches, and the [href]
    of every link. *)
Record page := {
  json_scripts : list ld_block;
  select : string -> list element;
  hrefs : list string
}.

Definition base_url : string := "https://crisp.nl".

(** [min(prices)] and [max(prices)] on a non-empty list: the first smallest
    and the first largest item. *)
Definition py_min (x : Q) (xs : list Q) : Q :=
  fold_left (fun m y => if Qlt_le_dec y m then y else m) xs x.
Definition py_max (x : Q) (xs : list Q) : Q :=
  fold_left (fun m y => if Qlt_le_dec m y then y else m) xs x.

(** [a or b] on optional attribute values ([None] when absent). *)
Definition or_else (a b : option string) : option string :=
  match a with
  | Some s => if String.eqb s EmptyString then b else a
  | None => b
  end.

Definition opt_truthy (a : option string) : bool :=
  match a with
  | Some s => negb (String.eqb s EmptyString)
  | None => false
  end.

Definition json_loads (script : ld_block) : result pyval :=
  match script with
  | LdNoString => Raise TypeError
  | LdInvalid => Raise JSONDecodeError
  | LdJson data => Ok data
  end.

Fixpoint assoc (k : string) (d : list (string * pyval)) : option pyval :=
  match d with
  | [] => None
  | (k', v) :: d' => if String.eqb k k' then Some v else assoc k d'
  end.

(** [v.get(k, dflt)] on an arbitrary object: only a [dict] has the method. *)
Definition obj_get (v : pyval) (k : string) (dflt : pyval) : result pyval :=
  match v with
  | VDict d => Ok (default dflt (assoc k d))
  | _ => Raise AttributeError
  end.

Definition of_price (p : option Q) : pyval :=
  match p with
  | Some q => VFloat q
  | None => VNone
  end.

(** The CSS selector [[attr*="val"]]. *)
Definition attr_contains (attr val : string) : string :=
  "[" +:+ attr +:+ "*=" +:+ String "034" val +:+ String "034" "]".

Definition product_selectors : list string :=
  [attr_contains "class" "product"; attr_contains "class" "item";
   attr_contains "data-testid" "product"; "article"; ".card";
   attr_contains "class" "tile"].

Section Scraper.

(** The two library functions whose results end up inside records:
    [urllib.parse.urljoin], and [str()] of an object that is not a [str]
    (a number, [None], a list or a dict decoded from JSON). *)
Variable urljoin : string -> string -> string.
Variable py_repr : pyval -> string.

Definition py_str (v : pyval) : string :=
  match v with
  | VStr s => s
  | _ => py_repr v
  end.

(** ** [CrispScraper.scrape_product_from_element] *)

(** The loop over [price_elements]: a candidate contributes only if its
    text contains the euro sign and its price is truthy. *)
Fixpoint collect_prices (price_elements : list string) (prices : list Q) : list Q :=
  match price_elements with
  | [] => prices
  | price_text :: rest =>
      if contains "€" price_text
      then match extract_price price_text with
           | Some price =>
               if truthy (VFloat price)
               then collect_prices rest (prices ++ [price])
               else collect_prices rest prices
           | None => collect_prices rest prices
           end
      else collect_prices rest prices
  end.

Definition set_title (e : element) (product : dict) : dict :=
  match title_elem e with
  | Some t => <["title" := VStr t]> product
  | None => product
  end.

Definition set_prices (prices : list Q) (product : dict) : dict :=
  match prices with
  | [] => product
  | [p] => <["price" := VFloat p]> product
  | p :: ps =>
      <["original_price" := VFloat (py_max p ps)]>
        (<["sale_price" := VFloat (py_min p ps)]> product)
  end.

Definition set_description (e : element) (product : dict) : dict :=
  match desc_elem e with
  | Some d => <["description" := VStr d]> product
  | None => product
  end.

Definition set_image (e : element) (product : dict) : dict :=
  match img_elem e with
  | Some i =>
      match or_else (src i) (data_src i) with
      | Some s =>
          if opt_truthy (Some s)
          then <["image" := VStr (urljoin base_url s)]> product
          else product
      | None => product
      end
  | None => product
  end.

Definition set_link (e : element) (product : dict) : dict :=
  match link_elem e with
  | Some (Some h) =>
      if opt_truthy (Some h)
      then <["link" := VStr (urljoin base_url h)]> product
      else product
  | _ => product
  end.

(** The dict as it stands when the [return] is reached. *)
Definition build_product (e : element) : dict :=
  let product := set_title e ∅ in
  let prices := collect_prices (price_elements e) [] in
  let product := set_prices prices product in
  let product := set_description e product in
  let product := set_image e product in
  set_link e product.

Definition scrape_product_from_element (e : element) : option dict :=
  let product := build_product e in
  if truthy (dict_get_none product "title")
     && (truthy (dict_get_none product "price")
         || truthy (dict_get_none product "sale_price"))
  then Some product
  else None.

(** ** [CrispScraper.get_page]

    The network is a function of time: [net n url] is what the [n]-th
    request of the run returns when it asks for [url], [None] standing for
    the [RequestException] of a failed or non-2xx request.  The clock
    counts the requests made so far. *)
Variable net : nat -> string -> option page.

(** [remaining] is what is left of [range(retries)]. *)
Fixpoint get_page_from (url : string) (retries remaining attempt clock : nat)
  : option page * nat :=
  match remaining with
  | O => (None, clock)
  | S remaining' =>
      match net clock url with
      | Some response => (Some response, S clock)
      | None =>
          if (attempt <? retries - 1)%nat
          then get_page_from url retries remaining' (S attempt) (S clock)
          else (None, S clock)
      end
  end.

Definition get_page (url : string) (retries clock : nat) : option page * nat :=
  get_page_from url retries retries 0 clock.

Definition default_retries : nat := 3.

(** ** [CrispScraper.scrape_products_page] *)

(** The body of the [try] for one structured-data block: [Ok (Some p)]
    when a record is appended, [Ok None] when the block is passed over.  A
    decoded JSON object is the list of its items. *)
Definition ld_product (url : string) (script : ld_block) : result (option dict) :=
  data ← json_loads script;
  match data with
  | VDict d =>
      match assoc "@type" d with
      | Some (VStr ty) =>
          if String.eqb ty "Product"
          then
            price ← obj_get (default (VDict []) (assoc "offers" d))
                            "price" (VStr EmptyString);
            let product : dict :=
              <["source" := VStr "json-ld"]>
                (<["link" := VStr url]>
                   (<["price" := of_price (extract_price (py_str price))]>
                      (<["description" := default VNone (assoc "description" d)]>
                         (<["title" := default VNone (assoc "name" d)]> ∅)))) in
            if truthy (dict_get_none product "title")
               && truthy (dict_get_none product "price")
            then Ok (Some product)
            else Ok None
          else Ok None
      | _ => Ok None
      end
  | _ => Ok None
  end.

(** The loop over [json_scripts]: [JSONDecodeError] and [AttributeError]
    are caught and the loop continues; any other exception leaves the
    method. *)
Fixpoint scan_json_ld (url : string) (json_scripts : list ld_block)
    (products : list dict) : result (list dict) :=
  match json_scripts with
  | [] => Ok products
  | script :: rest =>
      match ld_product url script with
      | Ok (Some product) => scan_json_ld url rest (products ++ [product])
      | Ok None => scan_json_ld url rest products
      | Raise JSONDecodeError | Raise AttributeError => scan_json_ld url rest products
      | Raise e => Raise e
      end
  end.

(** The products of the first ten elements of a match. *)
Definition scrape_elements (elements : list element) : list dict :=
  omap scrape_product_from_element (take 10 elements).

(** The loop over [product_selectors].  Besides [products] it returns the
    selectors [soup.select] was called with, in order. *)
Fixpoint cascade (soup : page) (selectors : list string)
    (products : list dict) (tried : list string) : list dict * list string :=
  match selectors with
  | [] => (products, tried)
  | selector :: rest =>
      match select soup selector with
      | [] => cascade soup rest products (tried ++ [selector])
      | elements =>
          let products := products ++ scrape_elements elements in
          match products with
          | [] => cascade soup rest products (tried ++ [selector])
          | _ => (products, tried ++ [selector])
          end
      end
  end.

(** The part of the method that follows the fetch. *)
Definition extract_products (url : string) (soup : page)
  : result (list dict * list string) :=
  products ← scan_json_ld url (json_scripts soup) [];
  match products with
  | [] => Ok (cascade soup product_selectors [] [])
  | _ => Ok (products, [])
  end.

Definition scrape_products_page (url : string) (clock : nat)
  : result (list dict * list string) * nat :=
  match get_page url default_retries clock with
  | (None, clock) => (Ok ([], []), clock)
  | (Some soup, clock) => (extract_products url soup, clock)
  end.

(** ** [CrispScraper.find_product_pages] *)

Definition category_keywords : list string := ["product"; "categorie"; "category"].

Fixpoint add_links (hrefs : list string) (urls_to_scrape : list string) : list string :=
  match hrefs with
  | [] => urls_to_scrape
  | href :: rest =>
      if existsb (fun keyword => contains keyword (lower href)) category_keywords
      then
        let full_url := urljoin base_url href in
        if existsb (String.eqb full_url) urls_to_scrape
        then add_links rest urls_to_scrape
        else add_links rest (urls_to_scrape ++ [full_url])
      else add_links rest urls_to_scrape
  end.

Definition find_product_pages (clock : nat) : list string * nat :=
  let urls_to_scrape := [base_url +:+ "/onze-producten"; base_url +:+ "/"] in
  match get_page (base_url +:+ "/onze-producten") default_retries clock with
  | (Some soup, clock) => (take 5 (add_links (hrefs soup) urls_to_scrape), clock)
  | (None, clock) => (take 5 urls_to_scrape, clock)
  end.

(** ** [CrispScraper.scrape_all_products] *)

(** The loop over [urls]: an exception of [scrape_products_page] is not
    caught here. *)
Fixpoint scrape_urls (urls : list string) (all_products : list dict) (clock : nat)
  : result (list dict) * nat :=
  match urls with
  | [] => (Ok all_products, clock)
  | url :: rest =>
      match scrape_products_page url clock with
      | (Ok (products, _), clock) => scrape_urls rest (all_products ++ products) clock
      | (Raise e, clock) => (Raise e, clock)
      end
  end.

(** Lists and dicts cannot be members of a [set]. *)
Definition hashable (v : pyval) : bool :=
  match v with
  | VList _ | VDict _ => false
  | _ => true
  end.

Definition to_number (v : pyval) : option Q :=
  match v with
  | VBool b => Some (inject_Z (if b then 1 else 0))
  | VInt z => Some (inject_Z z)
  | VFloat q => Some q
  | _ => None
  end.

(** [a == b] on hashable values: numbers compare by value, strings by
    content, [None] only equals itself. *)
Definition py_eqb (a b : pyval) : bool :=
  match a, b with
  | VNone, VNone => true
  | VStr x, VStr y => String.eqb x y
  | _, _ =>
      match to_number a, to_number b with
      | Some x, Some y => Qeq_bool x y
      | _, _ => false
      end
  end.

(** The deduplication loop; [seen_titles] is the set, kept as the list of
    its members. *)
Fixpoint unique_by_title (all_products : list dict) (seen_titles : list pyval)
    (unique_products : list dict) : result (list dict) :=
  match all_products with
  | [] => Ok unique_products
  | product :: rest =>
      match product !! "title" with
      | None => Raise KeyError
      | Some title =>
          if hashable title
          then
            if existsb (py_eqb title) seen_titles
            then unique_by_title rest seen_titles unique_products
            else unique_by_title rest (title :: seen_titles) (unique_products ++ [product])
          else Raise TypeError
      end
  end.

Definition scrape_all_products (clock : nat) : result (list dict) * nat :=
  let '(urls, clock) := find_product_pages clock in
  match scrape_urls urls [] clock with
  | (Ok all_products, clock) => (unique_by_title all_products [] [], clock)
  | (Raise e, clock) => (Raise e, clock)
  end.

(** ** [CrispScraper.find_sale_products]

    [self.products] is a list of dict objects and the method mutates them
    in place: the list it returns holds the same objects.  An object is
    identified by its position in [self.products]; the method returns the
    records of [self.products] as it leaves them and, for each element of
    the returned list, its position paired with the record found there. *)

(** The sort key of the [lambda].  [-x] raises [TypeError] unless [x] is a
    number.  The second component is a number for every record the
    scraper builds; the model raises [TypeError] on any other value, where
    Python does so only when the sort happens to compare it. *)
Definition sort_key (x : dict) : result (Q * Q) :=
  match to_number (dict_get x "discount_percentage" (VInt 0)) with
  | None => Raise TypeError
  | Some d =>
      match to_number (dict_get x "price" (dict_get x "sale_price" (VInt 999))) with
      | None => Raise TypeError
      | Some p => Ok ((- d)%Q, p)
      end
  end.

(** [a < b] on two keys: tuples compare lexicographically. *)
Definition key_lt (a b : Q * Q) : bool :=
  match (fst a ?= fst b)%Q with
  | Lt => true
  | Gt => false
  | Eq => match (snd a ?= snd b)%Q with
          | Lt => true
          | _ => false
          end
  end.

(** [list.sort] is stable, which determines its result: insert the items
    from left to right, each one behind the items that are not greater. *)
Fixpoint insert_by_key {A} (x : (Q * Q) * A) (sorted : list ((Q * Q) * A))
  : list ((Q * Q) * A) :=
  match sorted with
  | [] => [x]
  | y :: rest =>
      if key_lt (fst x) (fst y)
      then x :: y :: rest
      else y :: insert_by_key x rest
  end.

Definition sort_by_key {A} (l : list ((Q * Q) * A)) : list ((Q * Q) * A) :=
  fold_left (fun sorted x => insert_by_key x sorted) l [].

(** The keys are computed for the whole list before any comparison. *)
Fixpoint with_keys (l : list (nat * dict)) : result (list ((Q * Q) * (nat * dict))) :=
  match l with
  | [] => Ok []
  | x :: rest =>
      k ← sort_key (snd x);
      ks ← with_keys rest;
      Ok ((k, x) :: ks)
  end.

(** The classification loop, at position [i] of [self.products]. *)
Fixpoint classify_from (i : nat) (todo : list dict) (done_ : list dict)
    (sale_products : list (nat * dict)) : result (list dict * list (nat * dict)) :=
  match todo with
  | [] => Ok (done_, sale_products)
  | product :: rest =>
      match is_on_sale product with
      | Raise e => Raise e
      | Ok (true, product) =>
          let product := <["on_sale" := VBool true]> product in
          classify_from (S i) rest (done_ ++ [product]) (sale_products ++ [(i, product)])
      | Ok (false, product) =>
          classify_from (S i) rest (done_ ++ [product]) sale_products
      end
  end.

(** Lines 265 to 275: filter, then sort. *)
Definition select_on_sale (products : list dict)
  : result (list dict * list (nat * dict)) :=
  '(products, sale_products) ← classify_from 0 products [] [];
  keyed ← with_keys sale_products;
  Ok (products, map snd (sort_by_key keyed)).

Definition find_sale_products (self_products : list dict) (clock : nat)
  : result (list dict * list (nat * dict)) * nat :=
  match self_products with
  | [] =>
      match scrape_all_products clock with
      | (Ok products, clock) => (select_on_sale products, clock)
      | (Raise e, clock) => (Raise e, clock)
      end
  | _ => (select_on_sale self_products, clock)
  end.

(** ** [CrispScraper.save_to_csv]

    The method is modelled by what it hands to the [csv] module: the name
    of the file it opens, the header, and for each product the cell values
    in column order ([DictWriter] lays a row dict out along [fieldnames]).
    How a value is rendered as text is the library's business.  [now] is
    the timestamp [datetime.now().strftime] returns. *)

Definition fieldnames : list string :=
  ["title"; "price"; "sale_price"; "original_price"; "discount_percentage";
   "description"; "link"; "image"; "on_sale"; "source"].

Record csv_file := {
  csv_name : string;
  csv_header : list string;
  csv_rows : list (list pyval)
}.

(** The [row] dict of one product, along [fieldnames]. *)
Definition csv_row (product : dict) : list pyval :=
  map (fun field => dict_get product field (VStr EmptyString)) fieldnames.

(** [None] when nothing is written (the method returns [None]), otherwise
    the file written, whose name is the value returned. *)
Definition save_to_csv (now : string) (products : list dict)
    (filename : option string) : option csv_file :=
  let filename :=
    if opt_truthy filename
    then default EmptyString filename
    else "crisp_products_" +:+ now +:+ ".csv" in
  match products with
  | [] => None
  | _ =>
      Some {| csv_name := filename;
              csv_header := fieldnames;
              csv_rows := map csv_row products |}
  end.

End Scraper.

(** ** Predicates used in the statements *)

Definition starts_digit (s : string) : bool :=
  match s with
  | String c _ => is_digit c
  | EmptyString => false
  end.

Fixpoint has_char (a : ascii) (s : string) : bool :=
  match s with
  | EmptyString => false
  | String c s' => (if ascii_dec c a then true else false) || has_char a s'
  end.


Definition starts_sep (s : string) : bool :=
  match s with
  | String c _ => is_sep c
  | EmptyString => false
  end.

(** The spec's wording of the token: the first run [digits[.,]digits?] of
    [text], each part as long as it can be. *)
Definition first_price_token (text d1 sep d2 : string) : Prop :=
  exists pre rest,
    text = pre +:+ (d1 +:+ sep +:+ d2) +:+ rest
    /\ has_digit pre = false
    /\ all_digits d1 = true /\ d1 <> EmptyString
    /\ all_digits d2 = true
    /\ starts_digit rest = false
    /\ (sep = EmptyString /\ d2 = EmptyString /\ starts_sep rest = false
        \/ sep = "." \/ sep = ",").







(** Title and description are absent or strings, and [text] is the
    lowercase text the classifier works on. *)
Definition sale_text (product : dict) (text : string) : Prop :=
  exists title description,
    dict_get product "title" (VStr EmptyString) = VStr title
    /\ dict_get product "description" (VStr EmptyString) = VStr description
    /\ text = lower (title +:+ " " +:+ description).

Definition both_prices (product : dict) : bool :=
  truthy (dict_get_none product "original_price")
  && truthy (dict_get_none product "sale_price").

(** The spec's wording of the prices of a container: the candidates that
    show a euro sign and parse to a non-zero number, in order. *)
Definition found_price (price_text : string) : option Q :=
  if contains "€" price_text
  then match extract_price price_text with
       | Some price => if Qeq_bool price 0 then None else Some price
       | None => None
       end
  else None.

Definition found_prices (price_elements : list string) : list Q :=
  omap found_price price_elements.

Definition price_keys : list string := ["price"; "sale_price"; "original_price"].

(** Every price field of the record holds a positive number. *)
Definition positive_prices (product : dict) : Prop :=
  forall k v, In k price_keys -> product !! k = Some v ->
    exists q, v = VFloat q /\ (0 < q)%Q.

(** The records a selector yields on a page: those of the first ten
    elements it matches. *)
Definition yields (urljoin : string -> string -> string) (soup : page)
    (selector : string) : list dict :=
  scrape_elements urljoin (select soup selector).





(** A record with both fields has [sale_price <= original_price]. *)
Definition ordered_prices (r : dict) : Prop :=
  forall s o,
    r !! "sale_price" = Some (VFloat s) ->
    r !! "original_price" = Some (VFloat o) ->
    (s <= o)%Q.



(** Title and description are absent or strings. *)
Definition classifiable (r : dict) : Prop := exists text, sale_text r text.


(** Verdict and final state of one record, where the classifier does not
    raise. *)
Definition outcome (r : dict) : bool * dict :=
  match is_on_sale r with
  | Ok (true, r') => (true, <["on_sale" := VBool true]> r')
  | Ok (false, r') => (false, r')
  | Raise _ => (false, r)
  end.

(** The spec's wording of the filter: the accepted records, each with its
    position, in input order. *)
Fixpoint accepted (i : nat) (l : list dict) : list (nat * dict) :=
  match l with
  | [] => []
  | r :: l' =>
      if fst (outcome r)
      then (i, snd (outcome r)) :: accepted (S i) l'
      else accepted (S i) l'
  end.

Definition key_of (x : nat * dict) : Q * Q :=
  match sort_key (snd x) with
  | Ok k => k
  | Raise _ => (0%Q, 0%Q)
  end.

Definition with_key (x : nat * dict) : (Q * Q) * (nat * dict) := (key_of x, x).

(** ** Sample inputs *)

Definition kaas_25 : dict := <["title" := VStr "Kaas 25% korting"]> ∅.


(** The sample pages hold no link, no image and no price that is not a
    string: neither library function is ever called on them. *)
Definition sample_urljoin (base url : string) : string := url.
Definition sample_repr (v : pyval) : string := "None".

Definition zero_elem : element :=
  {| title_elem := Some "Gratis monster"; price_elements := ["€0,00"];
     desc_elem := None; img_elem := None; link_elem := None |}.

Definition no_title_elem : element :=
  {| title_elem := None; price_elements := ["€ 3,00"];
     desc_elem := None; img_elem := None; link_elem := None |}.

Definition kaas_elem : element :=
  {| title_elem := Some "Kaas"; price_elements := ["€ 3,00"; "€ 2,50"];
     desc_elem := None; img_elem := None; link_elem := None |}.

Definition kaas_record : dict :=
  <["original_price" := VFloat 3]>
    (<["sale_price" := VFloat (5 # 2)]> (<["title" := VStr "Kaas"]> ∅)).

(** The first selector matches one element without title, the second one
    a complete product. *)
Definition two_selector_page : page :=
  {| json_scripts := [];
     select := fun selector =>
       if String.eqb selector (attr_contains "class" "product") then [no_title_elem]
       else if String.eqb selector (attr_contains "class" "item") then [kaas_elem]
       else [];
     hrefs := [] |}.

(** The block [{"@type":"Product","name":"Widget","offers":{"price":"9.99"}}],
    decoded. *)
Definition widget_block : pyval :=
  VDict [("@type", VStr "Product"); ("name", VStr "Widget");
         ("offers", VDict [("price", VStr "9.99")])].

Definition widget_record (url : string) : dict :=
  <["source" := VStr "json-ld"]>
    (<["link" := VStr url]>
       (<["price" := VFloat (999 # 100)]>
          (<["description" := VNone]> (<["title" := VStr "Widget"]> ∅)))).

Definition widget_page : page :=
  {| json_scripts := [LdJson widget_block]; select := fun _ => []; hrefs := [] |}.

(** An empty [script] tag in front of the widget block. *)
Definition empty_block_page : page :=
  {| json_scripts := [LdNoString; LdJson widget_block];
     select := fun _ => []; hrefs := [] |}.

Definition sample_url : string := "https://crisp.nl/onze-producten".

Definition kaas_again : dict :=
  <["price" := VFloat 4]> (<["title" := VStr "Kaas"]> ∅).

Definition brood_record : dict :=
  <["price" := VFloat 2]> (<["title" := VStr "Brood"]> ∅).

(** Records of two pages, the title ["Kaas"] occurring on both. *)
Definition two_page_records : list dict := [kaas_record; brood_record; kaas_again].

(** A network on which the first two requests fail and the third one
    returns the widget page. *)
Definition third_time_net (n : nat) (url : string) : option page :=
  if (n <? 2)%nat then None else Some widget_page.

(** A network that always answers with the page of the empty block. *)
Definition empty_block_net (n : nat) (url : string) : option page :=
  Some empty_block_page.

(** ** Predicates used in the further properties *)

(** The keys a container record can carry. *)
Definition container_keys : gset string :=
  list_to_set ["title"; "price"; "sale_price"; "original_price";
               "description"; "image"; "link"].

(** The condition of both [return] filters: a truthy title and a truthy
    [price] or [sale_price]. *)
Definition valid_record (r : dict) : Prop :=
  truthy (dict_get_none r "title") = true
  /\ truthy (dict_get_none r "price") || truthy (dict_get_none r "sale_price") = true.

(** The keys of a structured-data record. *)
Definition ld_keys : gset string :=
  list_to_set ["title"; "description"; "price"; "link"; "source"].

(** The columns of the CSV file. *)
Definition columns : gset string := list_to_set fieldnames.

(** The record has a title that can be a member of a set. *)
Definition hashable_title (r : dict) : Prop :=
  exists t, r !! "title" = Some t /\ hashable t = true.

(** No record has a title equal, as [==] has it, to the title of a record
    before it. *)
Fixpoint distinct_titles (l : list dict) : Prop :=
  match l with
  | [] => True
  | a :: l' =>
      (forall b ta tb,
         In b l' -> a !! "title" = Some ta -> b !! "title" = Some tb ->
         py_eqb tb ta = false)
      /\ distinct_titles l'
  end.

(** The deduplication loop without its exceptions: a record is kept when
    no title seen so far equals its own. *)
Fixpoint keep_new (seen : list pyval) (l : list dict) : list dict :=
  match l with
  | [] => []
  | r :: l' =>
      match r !! "title" with
      | Some t =>
          if existsb (py_eqb t) seen
          then keep_new seen l'
          else r :: keep_new (t :: seen) l'
      | None => keep_new seen l'
      end
  end.

(** The two URLs every run starts from. *)
Definition seed_urls : list string :=
  [base_url +:+ "/onze-producten"; base_url +:+ "/"].

(** The link is followed: its lowercase [href] holds a category keyword. *)
Definition category_link (href : string) : bool :=
  existsb (fun keyword => contains keyword (lower href)) category_keywords.

(** The record read back from a CSV row along the header. *)
Definition read_row (header : list string) (row : list pyval) : dict :=
  list_to_map (zip header row).

(** A network on which every request fails. *)
Definition net_down (n : nat) (url : string) : option page := None.

(** A network that always answers with the widget page. *)
Definition widget_net (n : nat) (url : string) : option page := Some widget_page.


Definition kaas_upper : dict :=
  <["price" := VFloat 4]> (<["title" := VStr "KAAS 25% KORTING"]> ∅).

(** A record that has lost its title. *)
Definition untitled_record : dict := <["price" := VFloat 1]> ∅.

(** ** Facts about the text primitives *)

Lemma app_cons (c : ascii) (a b : string) :
  String c a +:+ b = String c (a +:+ b).
Proof. reflexivity. Qed.

Lemma app_empty_l (s : string) : EmptyString +:+ s = s.
Proof. reflexivity. Qed.

Lemma app_empty_r (s : string) : s +:+ EmptyString = s.
Proof.
  induction s as [|c s IH]; [reflexivity|].
  rewrite app_cons. f_equal. exact IH.
Qed.

Lemma app_assoc_s (a b c : string) : (a +:+ b) +:+ c = a +:+ (b +:+ c).
Proof.
  induction a as [|x a IH]; [reflexivity|].
  rewrite !app_cons. f_equal. exact IH.
Qed.

Lemma span_digits_spec (s : string) :
  s = fst (span_digits s) +:+ snd (span_digits s)
  /\ all_digits (fst (span_digits s)) = true
  /\ starts_digit (snd (span_digits s)) = false.
Proof.
  induction s as [|c s IH]; simpl; [auto|].
  destruct (is_digit c) eqn:Hc.
  - destruct (span_digits s) as [ds r]; simpl in *.
    destruct IH as (-> & Hd & Hr). rewrite Hc, Hd. auto.
  - simpl. rewrite Hc. auto.
Qed.

Lemma span_digits_app (ds r : string) :
  all_digits ds = true -> starts_digit r = false ->
  span_digits (ds +:+ r) = (ds, r).
Proof.
  induction ds as [|c ds IH]; simpl; intros Hd Hr.
  - destruct r as [|c r]; [reflexivity|]. simpl in *. now rewrite Hr.
  - apply andb_prop in Hd as [Hc Hd]. rewrite Hc, (IH Hd Hr). reflexivity.
Qed.

Lemma span_digits_no_digit (s : string) :
  starts_digit s = false -> span_digits s = (EmptyString, s).
Proof. destruct s as [|c s]; simpl; [reflexivity|]. now intros ->. Qed.


Lemma has_char_app (x : ascii) (a b : string) :
  has_char x (a +:+ b) = has_char x a || has_char x b.
Proof.
  induction a as [|c a IH]; simpl; [reflexivity|].
  now rewrite IH, orb_assoc.
Qed.




Lemma prefix_empty (s : string) : String.prefix EmptyString s = true.
Proof. now destruct s. Qed.

Lemma replace_comma_no_comma (s : string) :
  has_char "," (replace "," "." s) = false.
Proof.
  unfold replace. induction s as [|c s IH]; [reflexivity|].
  cbn [replace_from String.prefix].
  destruct (ascii_dec "," c) as [<-|Hne].
  - rewrite prefix_empty. cbn [String.length Nat.sub].
    rewrite has_char_app, IH. reflexivity.
  - cbn [has_char]. rewrite IH.
    destruct (ascii_dec c ","); [congruence | reflexivity].
Qed.

Lemma re_price_at_digit (s : string) :
  starts_digit s = false -> re_price_at s = None.
Proof.
  intros H. unfold re_price_at. now rewrite (span_digits_no_digit _ H).
Qed.


Lemma re_price_at_some (s tok : string) :
  re_price_at s = Some tok ->
  exists d1 sep d2 rest,
    s = (d1 +:+ sep +:+ d2) +:+ rest /\ tok = d1 +:+ sep +:+ d2
    /\ all_digits d1 = true /\ d1 <> EmptyString
    /\ all_digits d2 = true
    /\ starts_digit rest = false
    /\ (sep = EmptyString /\ d2 = EmptyString /\ starts_sep rest = false
        \/ sep = "." \/ sep = ",").
Proof.
  unfold re_price_at.
  destruct (span_digits_spec s) as (Hs & Hd1 & Hr1).
  destruct (span_digits s) as [d1 r1]; cbn [fst snd] in *.
  destruct d1 as [|c d1]; [discriminate|].
  destruct r1 as [|x r2].
  - intros [= <-]. exists (String c d1), EmptyString, EmptyString, EmptyString.
    rewrite !app_empty_r. rewrite app_empty_r in Hs.
    split; [exact Hs|]. split; [reflexivity|]. split; [exact Hd1|].
    split; [discriminate|]. split; [reflexivity|]. split; [reflexivity|].
    left. repeat split.
  - destruct (is_sep x) eqn:Hx.
    + destruct (span_digits_spec r2) as (Hs2 & Hd2 & Hr2).
      destruct (span_digits r2) as [d2 r3]; cbn [fst snd] in *.
      intros [= <-]. exists (String c d1), (String x EmptyString), d2, r3.
      split; [rewrite Hs, Hs2, !app_assoc_s; reflexivity|].
      split; [reflexivity|]. split; [exact Hd1|]. split; [discriminate|].
      split; [exact Hd2|]. split; [exact Hr2|].
      right. unfold is_sep in Hx.
      destruct (ascii_dec x ",") as [->|]; [now right|].
      destruct (ascii_dec x ".") as [->|]; [now left | discriminate].
    + rewrite (span_digits_no_digit _ Hr1). cbn [fst].
      intros [= <-]. exists (String c d1), EmptyString, EmptyString, (String x r2).
      rewrite !app_empty_r.
      split; [exact Hs|]. split; [reflexivity|]. split; [exact Hd1|].
      split; [discriminate|]. split; [reflexivity|]. split; [exact Hr1|].
      left. repeat split. exact Hx.
Qed.

Lemma re_search_price_some (text tok : string) :
  re_search_price text = Some tok ->
  exists d1 sep d2, tok = d1 +:+ sep +:+ d2 /\ first_price_token text d1 sep d2.
Proof.
  induction text as [|c text IH]; [discriminate|].
  cbn [re_search_price].
  destruct (re_price_at (String c text)) as [tok'|] eqn:Hat.
  - intros [= ->].
    destruct (re_price_at_some _ _ Hat) as (d1 & sep & d2 & rest & Hs & Ht & H).
    exists d1, sep, d2. split; [exact Ht|].
    exists EmptyString, rest. rewrite app_empty_l. split; [exact Hs|].
    split; [reflexivity | exact H].
  - intros Hsearch.
    destruct (IH Hsearch) as (d1 & sep & d2 & Ht & pre & rest & Hs & Hpre & H).
    exists d1, sep, d2. split; [exact Ht|].
    exists (String c pre), rest. rewrite app_cons, <- Hs.
    split; [reflexivity|]. split; [|exact H].
    cbn [has_digit]. rewrite Hpre, orb_false_r.
    destruct (is_digit c) eqn:Hc; [|reflexivity].
    exfalso. revert Hat. unfold re_price_at. cbn [span_digits]. rewrite Hc.
    destruct (span_digits text) as [ds r]. destruct r as [|x r]; [discriminate|].
    now destruct (is_sep x).
Qed.


Lemma py_float_token (d1 sep d2 : string) :
  all_digits d1 = true -> d1 <> EmptyString -> all_digits d2 = true ->
  sep = EmptyString /\ d2 = EmptyString \/ sep = "." ->
  py_float (d1 +:+ sep +:+ d2) = Some (decimal d1 d2).
Proof.
  intros Hd1 Hne Hd2 [[-> ->]| ->]; unfold py_float.
  - rewrite !app_empty_r.
    rewrite <- (app_empty_r d1) at 1.
    rewrite (span_digits_app d1 EmptyString Hd1 eq_refl).
    destruct d1; [congruence | reflexivity].
  - rewrite (span_digits_app d1 ("." +:+ d2) Hd1 eq_refl).
    destruct d1 as [|c d1]; [congruence|].
    change ("." +:+ d2) with (String "." d2). cbn iota.
    destruct (ascii_dec "." ".") as [_|]; [|congruence].
    rewrite <- (app_empty_r d2) at 1.
    rewrite (span_digits_app d2 EmptyString Hd2 eq_refl). reflexivity.
Qed.

Lemma has_char_token (text d1 sep d2 : string) :
  first_price_token text d1 sep d2 -> has_char "," text = false -> sep <> ",".
Proof.
  intros (pre & rest & -> & _) Hc ->.
  rewrite !has_char_app in Hc. cbn in Hc.
  rewrite !orb_true_r in Hc. discriminate.
Qed.

(** ** [extract_price] *)

(** [float] never sees a token it rejects: the [ValueError] branch of
    [py_float] is dead code for [extract_price]. *)
Lemma extract_price_no_ValueError (text tok : string) :
  re_search_price (normalise text) = Some tok -> py_float tok <> None.
Proof.
  intros Hsearch.
  destruct (re_search_price_some _ _ Hsearch) as (d1 & sep & d2 & -> & Htok).
  pose proof (has_char_token _ _ _ _ Htok (replace_comma_no_comma _)) as Hsep.
  destruct Htok as (pre & rest & _ & _ & Hd1 & Hne & Hd2 & _ & Hcases).
  rewrite py_float_token; [discriminate | assumption .. |].
  destruct Hcases as [(-> & -> & _)|[->| ->]]; [now left | now right | congruence].
Qed.



(** ** [is_on_sale] *)













(** ** The stable sort *)

Lemma key_lt_true (a b : Q * Q) :
  key_lt a b = true
  <-> (fst a < fst b \/ (fst a == fst b /\ snd a < snd b))%Q.
Proof.
  unfold key_lt.
  destruct (Qcompare_spec (fst a) (fst b)) as [H|H|H];
    [destruct (Qcompare_spec (snd a) (snd b)) as [H'|H'|H']|..];
    split; try discriminate; try reflexivity; intros; lra.
Qed.

Lemma key_lt_false (a b : Q * Q) :
  key_lt a b = false
  <-> (fst b < fst a \/ (fst a == fst b /\ snd b <= snd a))%Q.
Proof.
  unfold key_lt.
  destruct (Qcompare_spec (fst a) (fst b)) as [H|H|H];
    [destruct (Qcompare_spec (snd a) (snd b)) as [H'|H'|H']|..];
    split; try discriminate; try reflexivity; intros; lra.
Qed.

Lemma key_lt_trans (a b c : Q * Q) :
  key_lt a b = true -> key_lt b c = true -> key_lt a c = true.
Proof. rewrite !key_lt_true. intros; lra. Qed.


Lemma key_le_trans (a b c : Q * Q) :
  key_lt b a = false -> key_lt c b = false -> key_lt c a = false.
Proof. rewrite !key_lt_false. intros; lra. Qed.


Lemma insert_by_key_perm {A} (x : (Q * Q) * A) (l : list ((Q * Q) * A)) :
  Permutation (insert_by_key x l) (x :: l).
Proof.
  induction l as [|y l IH]; cbn [insert_by_key]; [reflexivity|].
  destruct (key_lt (fst x) (fst y)); [reflexivity|].
  rewrite IH. apply perm_swap.
Qed.

Lemma sort_by_key_snoc {A} (l : list ((Q * Q) * A)) (x : (Q * Q) * A) :
  sort_by_key (l ++ [x]) = insert_by_key x (sort_by_key l).
Proof. unfold sort_by_key. now rewrite fold_left_app. Qed.

Lemma sort_by_key_perm {A} (l : list ((Q * Q) * A)) :
  Permutation (sort_by_key l) l.
Proof.
  induction l as [|x l IH] using rev_ind; [reflexivity|].
  rewrite sort_by_key_snoc, insert_by_key_perm, IH.
  apply Permutation_cons_append.
Qed.



Lemma is_on_sale_classifiable (r : dict) :
  classifiable r ->
  exists b r', is_on_sale r = Ok (b, r')
    /\ (r' = r \/ exists n, r' = <["discount_percentage" := VInt n]> r).
Proof.
  intros (text & title & description & Ht & Hd & _).
  unfold is_on_sale. rewrite Ht, Hd. cbn [py_add_str mbind result_bind py_lower].
  destruct (re_search_discount _) as [ds|]; [eauto 6|].
  destruct (existsb _ _); [eauto|].
  destruct (_ && _); eauto.
Qed.


Lemma classify_from_accepted (i : nat) (todo done_ : list dict)
    (sale_products : list (nat * dict)) :
  Forall classifiable todo ->
  classify_from i todo done_ sale_products
  = Ok (done_ ++ map (fun r => snd (outcome r)) todo,
        sale_products ++ accepted i todo).
Proof.
  intros Hall. revert i done_ sale_products.
  induction Hall as [|r todo Hr _ IH]; intros i done_ sale_products;
    cbn [classify_from accepted map].
  - now rewrite !app_nil_r.
  - unfold outcome.
    destruct (is_on_sale_classifiable r Hr) as (b & r' & -> & _).
    destruct b; cbn [fst snd]; rewrite IH, <- !app_assoc; reflexivity.
Qed.


Lemma accepted_elem (i : nat) (l : list dict) (x : nat * dict) :
  In x (accepted i l) ->
  exists r0, l !! (fst x - i)%nat = Some r0 /\ (i <= fst x)%nat
    /\ fst (outcome r0) = true /\ snd x = snd (outcome r0).
Proof.
  revert i. induction l as [|r l IH]; intros i; cbn [accepted]; [easy|].
  assert (Hrest : In x (accepted (S i) l) ->
            exists r0, (r :: l) !! (fst x - i)%nat = Some r0 /\ (i <= fst x)%nat
              /\ fst (outcome r0) = true /\ snd x = snd (outcome r0)).
  { intros Hin. destruct (IH _ Hin) as (r0 & Hl & Hle & Hb & Hx).
    exists r0. replace (fst x - i)%nat with (S (fst x - S i)) by lia.
    repeat split; auto. lia. }
  destruct (fst (outcome r)) eqn:Hb; [|exact Hrest].
  intros [<-|Hin]; [|auto].
  exists r. cbn [fst snd]. rewrite Nat.sub_diag. auto.
Qed.






(** ** Deduplication by title *)

#[local] Set Warnings "-clear-no-such-hyp".









(** ** [scrape_product_from_element] *)

Section Properties.

Variable urljoin : string -> string -> string.
Variable py_repr : pyval -> string.

Lemma collect_prices_found (price_elements : list string) (prices : list Q) :
  collect_prices price_elements prices = prices ++ found_prices price_elements.
Proof.
  revert prices. induction price_elements as [|t rest IH]; intros prices.
  - cbn. now rewrite app_nil_r.
  - cbn [collect_prices found_prices omap list_omap]. unfold found_price at 1.
    destruct (contains "€" t); [|apply IH].
    destruct (extract_price t) as [q|]; [|apply IH].
    cbn [truthy]. destruct (Qeq_bool q 0); cbn [negb]; [apply IH|].
    rewrite IH, <- app_assoc. reflexivity.
Qed.

Lemma py_min_spec (x : Q) (xs : list Q) :
  In (py_min x xs) (x :: xs) /\ forall y, In y (x :: xs) -> (py_min x xs <= y)%Q.
Proof.
  unfold py_min. revert x. induction xs as [|a xs IH]; intros x; cbn [fold_left].
  - split; [now left|]. intros y [<-|[]]. apply Qle_refl.
  - destruct (Qlt_le_dec a x) as [Hlt|Hle].
    + destruct (IH a) as [Hin Hmin]. split.
      * destruct Hin as [<-|Hin]; [right; now left | right; now right].
      * intros y [<-|[<-|Hy]].
        -- apply Qle_trans with a; [apply Hmin; now left | now apply Qlt_le_weak].
        -- apply Hmin. now left.
        -- apply Hmin. now right.
    + destruct (IH x) as [Hin Hmin]. split.
      * destruct Hin as [<-|Hin]; [now left | right; now right].
      * intros y [<-|[<-|Hy]].
        -- apply Hmin. now left.
        -- apply Qle_trans with x; [apply Hmin; now left | exact Hle].
        -- apply Hmin. now right.
Qed.

Lemma py_max_spec (x : Q) (xs : list Q) :
  In (py_max x xs) (x :: xs) /\ forall y, In y (x :: xs) -> (y <= py_max x xs)%Q.
Proof.
  unfold py_max. revert x. induction xs as [|a xs IH]; intros x; cbn [fold_left].
  - split; [now left|]. intros y [<-|[]]. apply Qle_refl.
  - destruct (Qlt_le_dec x a) as [Hlt|Hle].
    + destruct (IH a) as [Hin Hmax]. split.
      * destruct Hin as [<-|Hin]; [right; now left | right; now right].
      * intros y [<-|[<-|Hy]].
        -- apply Qle_trans with a; [now apply Qlt_le_weak | apply Hmax; now left].
        -- apply Hmax. now left.
        -- apply Hmax. now right.
    + destruct (IH x) as [Hin Hmax]. split.
      * destruct Hin as [<-|Hin]; [now left | right; now right].
      * intros y [<-|[<-|Hy]].
        -- apply Hmax. now left.
        -- apply Qle_trans with x; [exact Hle | apply Hmax; now left].
        -- apply Hmax. now right.
Qed.

(** The other fields leave the three price keys alone. *)
Lemma build_product_price_key (e : element) (k : string) :
  In k price_keys ->
  build_product urljoin e !! k = set_prices (found_prices (price_elements e)) ∅ !! k.
Proof.
  intros Hk. unfold build_product. rewrite collect_prices_found, app_nil_l.
  assert (Hne : k <> "title" /\ k <> "description" /\ k <> "image" /\ k <> "link").
  { cbn in Hk. intuition (subst; discriminate). }
  destruct Hne as (H1 & H2 & H3 & H4).
  assert (Hlink : forall m : dict, set_link urljoin e m !! k = m !! k).
  { intros m. unfold set_link. destruct (link_elem e) as [[h|]|]; try reflexivity.
    destruct (opt_truthy (Some h)); [|reflexivity].
    now rewrite lookup_insert_ne. }
  assert (Himg : forall m : dict, set_image urljoin e m !! k = m !! k).
  { intros m. unfold set_image. destruct (img_elem e) as [i|]; [|reflexivity].
    destruct (or_else (src i) (data_src i)) as [s|]; [|reflexivity].
    destruct (opt_truthy (Some s)); [|reflexivity].
    now rewrite lookup_insert_ne. }
  assert (Hdesc : forall m : dict, set_description e m !! k = m !! k).
  { intros m. unfold set_description. destruct (desc_elem e); [|reflexivity].
    now rewrite lookup_insert_ne. }
  rewrite Hlink, Himg, Hdesc.
  assert (Hprices : forall ps (m : dict), m !! k = None ->
            set_prices ps m !! k = set_prices ps ∅ !! k).
  { intros ps m Hm. unfold set_prices. destruct ps as [|p [|p' ps]].
    - now rewrite Hm, lookup_empty.
    - destruct (decide ("price" = k)) as [<-|].
      + now rewrite !lookup_insert_eq.
      + rewrite !lookup_insert_ne by assumption. now rewrite Hm, lookup_empty.
    - destruct (decide ("original_price" = k)) as [<-|].
      + now rewrite !lookup_insert_eq.
      + rewrite !(lookup_insert_ne _ "original_price") by assumption.
        destruct (decide ("sale_price" = k)) as [<-|].
        * now rewrite !lookup_insert_eq.
        * rewrite !lookup_insert_ne by assumption. now rewrite Hm, lookup_empty. }
  apply Hprices. unfold set_title. destruct (title_elem e); [|apply lookup_empty].
  rewrite lookup_insert_ne by congruence. apply lookup_empty.
Qed.

Lemma set_prices_lookup (prices : list Q) :
  match prices with
  | [] =>
      set_prices prices ∅ !! "price" = None
      /\ set_prices prices ∅ !! "sale_price" = None
      /\ set_prices prices ∅ !! "original_price" = None
  | [p] =>
      set_prices prices ∅ !! "price" = Some (VFloat p)
      /\ set_prices prices ∅ !! "sale_price" = None
      /\ set_prices prices ∅ !! "original_price" = None
  | p :: ps =>
      set_prices prices ∅ !! "price" = None
      /\ set_prices prices ∅ !! "sale_price" = Some (VFloat (py_min p ps))
      /\ set_prices prices ∅ !! "original_price" = Some (VFloat (py_max p ps))
  end.
Proof.
  destruct prices as [|p [|q ps]]; cbn [set_prices].
  - now rewrite !lookup_empty.
  - rewrite lookup_insert_eq, !lookup_insert_ne, !lookup_empty by discriminate.
    auto.
  - rewrite lookup_insert_eq.
    rewrite !(lookup_insert_ne _ "original_price") by discriminate.
    rewrite lookup_insert_eq, lookup_insert_ne, lookup_empty by discriminate.
    auto.
Qed.

Lemma build_product_prices (e : element) :
  let prices := found_prices (price_elements e) in
  let product := build_product urljoin e in
  collect_prices (price_elements e) [] = prices
  /\ (forall r, scrape_product_from_element urljoin e = Some r -> r = product)
  /\ (forall p, prices = [p] ->
        product !! "price" = Some (VFloat p)
        /\ product !! "sale_price" = None
        /\ product !! "original_price" = None)
  /\ (forall p q rest, prices = p :: q :: rest ->
        exists lo hi,
          product !! "sale_price" = Some (VFloat lo)
          /\ product !! "original_price" = Some (VFloat hi)
          /\ product !! "price" = None
          /\ In lo prices /\ In hi prices
          /\ forall x, In x prices -> (lo <= x /\ x <= hi)%Q)
  /\ (forall s o,
        product !! "sale_price" = Some (VFloat s) ->
        product !! "original_price" = Some (VFloat o) ->
        (s <= o)%Q).
Proof.
  intros prices product.
  assert (Hp : product !! "price" = set_prices prices ∅ !! "price")
    by (apply build_product_price_key; cbn; auto).
  assert (Hs : product !! "sale_price" = set_prices prices ∅ !! "sale_price")
    by (apply build_product_price_key; cbn; auto).
  assert (Ho : product !! "original_price" = set_prices prices ∅ !! "original_price")
    by (apply build_product_price_key; cbn; auto).
  pose proof (set_prices_lookup prices) as Hl.
  assert (Htwo : forall p q rest, prices = p :: q :: rest ->
        exists lo hi,
          product !! "sale_price" = Some (VFloat lo)
          /\ product !! "original_price" = Some (VFloat hi)
          /\ product !! "price" = None
          /\ In lo prices /\ In hi prices
          /\ forall x, In x prices -> (lo <= x /\ x <= hi)%Q).
  { intros p q rest E. rewrite E in Hl. destruct Hl as (H1 & H2 & H3).
    destruct (py_min_spec p (q :: rest)) as [Hmin_in Hmin].
    destruct (py_max_spec p (q :: rest)) as [Hmax_in Hmax].
    exists (py_min p (q :: rest)), (py_max p (q :: rest)).
    rewrite Hp, Hs, Ho, E. repeat split; auto. }
  split; [unfold prices; now rewrite collect_prices_found|].
  split.
  { intros r. unfold scrape_product_from_element. fold product.
    destruct (_ && _); [now intros [= <-] | discriminate]. }
  split.
  { intros p E. rewrite E in Hl. rewrite Hp, Hs, Ho, E. exact Hl. }
  split; [exact Htwo|].
  intros s o Hs' Ho'. destruct prices as [|p [|q rest]] eqn:E.
  - destruct Hl as (_ & H & _). congruence.
  - destruct Hl as (_ & H & _). congruence.
  - destruct (Htwo p q rest eq_refl) as (lo & hi & H1 & H2 & _ & Hlo & _ & Hb).
    assert (lo = s) as <- by congruence. assert (hi = o) as <- by congruence.
    destruct (Hb lo Hlo) as [_ H]. exact H.
Qed.

(** ** Invariants of the extraction loops *)

Lemma scan_json_ld_Forall (P : dict -> Prop) (url : string)
    (scripts : list ld_block) (products res : list dict) :
  (forall s r, ld_product py_repr url s = Ok (Some r) -> P r) ->
  Forall P products ->
  scan_json_ld py_repr url scripts products = Ok res -> Forall P res.
Proof.
  intros Hld. revert products.
  induction scripts as [|s rest IH]; intros products Hacc; cbn [scan_json_ld].
  - now intros [= <-].
  - destruct (ld_product py_repr url s) as [[r|]|e] eqn:E.
    + apply IH. apply Forall_app. split; [exact Hacc|].
      constructor; [eapply Hld; eauto | constructor].
    + now apply IH.
    + destruct e; try discriminate; now apply IH.
Qed.

Lemma scrape_elements_Forall (P : dict -> Prop) (elements : list element) :
  (forall e r, scrape_product_from_element urljoin e = Some r -> P r) ->
  Forall P (scrape_elements urljoin elements).
Proof.
  intros Hp. unfold scrape_elements. apply Forall_forall. intros r Hin.
  apply list_elem_of_omap in Hin as (e & _ & He). eauto.
Qed.

Lemma cascade_Forall (P : dict -> Prop) (soup : page)
    (selectors : list string) (products : list dict) (tried : list string) :
  (forall e r, scrape_product_from_element urljoin e = Some r -> P r) ->
  Forall P products ->
  Forall P (fst (cascade urljoin soup selectors products tried)).
Proof.
  intros Hp. revert products tried.
  induction selectors as [|sel rest IH]; intros products tried Hacc;
    cbn [cascade]; [exact Hacc|].
  destruct (select soup sel) as [|e els] eqn:E; [now apply IH|].
  assert (Hall : Forall P (products ++ scrape_elements urljoin (e :: els))).
  { apply Forall_app. split; [exact Hacc | now apply scrape_elements_Forall]. }
  destruct (products ++ scrape_elements urljoin (e :: els)); [now apply IH | exact Hall].
Qed.

Lemma extract_products_Forall (P : dict -> Prop) (url : string) (soup : page)
    (products : list dict) (tried : list string) :
  (forall s r, ld_product py_repr url s = Ok (Some r) -> P r) ->
  (forall e r, scrape_product_from_element urljoin e = Some r -> P r) ->
  extract_products urljoin py_repr url soup = Ok (products, tried) ->
  Forall P products.
Proof.
  intros Hld Hel. unfold extract_products.
  destruct (scan_json_ld py_repr url (json_scripts soup) []) as [found|] eqn:E;
    [|discriminate].
  cbn [mbind result_bind].
  apply (scan_json_ld_Forall P) in E; [|exact Hld|constructor].
  destruct found as [|r found].
  - intros H.
    assert (Hc : cascade urljoin soup product_selectors [] [] = (products, tried))
      by congruence.
    pose proof (cascade_Forall P soup product_selectors [] [] Hel E) as Hall.
    now rewrite Hc in Hall.
  - now intros [= <- _].
Qed.

Lemma ld_product_no_sale_price (url : string) (script : ld_block) (r : dict) :
  ld_product py_repr url script = Ok (Some r) -> r !! "sale_price" = None.
Proof.
  unfold ld_product. destruct (json_loads script) as [data|]; [|discriminate].
  cbn [mbind result_bind]. destruct data as [| | | | |l|d]; try discriminate.
  destruct (assoc "@type" d) as [[| | | |ty| |]|]; try discriminate.
  destruct (String.eqb ty "Product"); [|discriminate].
  destruct (obj_get _ _ _) as [price|]; [|discriminate].
  cbn [mbind result_bind]. destruct (_ && _); [|discriminate].
  intros [= <-]. now rewrite !lookup_insert_ne, lookup_empty by discriminate.
Qed.

(** C4. The prices found in a container are those [collect_prices]
    gathers.  Exactly one: it is [price], and neither [sale_price] nor
    [original_price] is set.  Two or more: [sale_price] is their minimum,
    [original_price] their maximum, and [price] is not set.  Hence every
    record the extractor emits that has both fields has
    [sale_price <= original_price]. *)
Theorem container_prices (e : element) :
  let prices := found_prices (price_elements e) in
  let product := build_product urljoin e in
  collect_prices (price_elements e) [] = prices
  /\ (forall r, scrape_product_from_element urljoin e = Some r -> r = product)
  /\ (forall p, prices = [p] ->
        product !! "price" = Some (VFloat p)
        /\ product !! "sale_price" = None
        /\ product !! "original_price" = None)
  /\ (forall p q rest, prices = p :: q :: rest ->
        exists lo hi,
          product !! "sale_price" = Some (VFloat lo)
          /\ product !! "original_price" = Some (VFloat hi)
          /\ product !! "price" = None
          /\ In lo prices /\ In hi prices
          /\ forall x, In x prices -> (lo <= x /\ x <= hi)%Q)
  /\ ordered_prices product
  /\ (forall url soup products tried,
        extract_products urljoin py_repr url soup = Ok (products, tried) ->
        Forall ordered_prices products).
Proof.
  intros prices product.
  destruct (build_product_prices e) as (H1 & H2 & H3 & H4 & H5).
  split; [exact H1|]. split; [exact H2|]. split; [exact H3|].
  split; [exact H4|]. split; [exact H5|].
  intros url soup products tried. apply extract_products_Forall.
  - intros s r Hr s' o Hs. apply ld_product_no_sale_price in Hr. congruence.
  - intros e' r Hr.
    destruct (build_product_prices e') as (_ & Heq & _ & _ & Hord).
    apply Heq in Hr as ->. exact Hord.
Qed.

(** ** Prices are positive *)

Lemma decimal_nonneg (d1 d2 : string) : (0 <= decimal d1 d2)%Q.
Proof.
  unfold decimal. rewrite Qred_correct. unfold Qle. cbn [Qnum Qden].
  rewrite Z.mul_1_r. change (0 * _)%Z with 0%Z. apply N2Z.is_nonneg.
Qed.

Lemma py_float_nonneg (tok : string) (q : Q) :
  py_float tok = Some q -> (0 <= q)%Q.
Proof.
  unfold py_float. destruct (span_digits tok) as [d1 r].
  destruct d1 as [|c d1]; [discriminate|].
  destruct r as [|x r].
  - intros [= <-]. apply decimal_nonneg.
  - destruct (ascii_dec x "."); [|discriminate].
    destruct (span_digits r) as [d2 r2]. destruct r2; [|discriminate].
    intros [= <-]. apply decimal_nonneg.
Qed.

Lemma extract_price_nonneg (text : string) (q : Q) :
  extract_price text = Some q -> (0 <= q)%Q.
Proof.
  unfold extract_price. destruct text; [discriminate|].
  destruct (re_search_price _); [apply py_float_nonneg | discriminate].
Qed.

Lemma truthy_price_positive (text : string) (q : Q) :
  extract_price text = Some q -> Qeq_bool q 0 = false -> (0 < q)%Q.
Proof.
  intros Hq Hz. apply extract_price_nonneg in Hq.
  apply Qeq_bool_neq in Hz. apply Qle_lteq in Hq as [H|H]; [exact H|].
  elim Hz. now symmetry.
Qed.

Lemma found_price_positive (text : string) (q : Q) :
  found_price text = Some q -> (0 < q)%Q.
Proof.
  unfold found_price. destruct (contains "€" text); [|discriminate].
  destruct (extract_price text) as [p|] eqn:E; [|discriminate].
  destruct (Qeq_bool p 0) eqn:Hz; [discriminate|].
  intros [= <-]. eapply truthy_price_positive; eauto.
Qed.

Lemma found_prices_positive (price_elements : list string) (q : Q) :
  In q (found_prices price_elements) -> (0 < q)%Q.
Proof.
  unfold found_prices. intros Hin. apply list_elem_of_In in Hin.
  apply list_elem_of_omap in Hin as (t & _ & Ht).
  eapply found_price_positive; eauto.
Qed.

Lemma found_price_zero (text : string) :
  (forall q, extract_price text = Some q -> (q == 0)%Q) ->
  found_price text = None.
Proof.
  intros Hz. unfold found_price. destruct (contains "€" text); [|reflexivity].
  destruct (extract_price text) as [p|]; [|reflexivity].
  assert (H : Qeq_bool p 0 = true) by (apply Qeq_bool_iff; auto).
  now rewrite H.
Qed.

Lemma found_prices_zero (price_elements : list string) :
  (forall t q, In t price_elements -> extract_price t = Some q -> (q == 0)%Q) ->
  found_prices price_elements = [].
Proof.
  unfold found_prices. induction price_elements as [|t rest IH]; intros Hz;
    [reflexivity|].
  cbn [omap list_omap]. rewrite found_price_zero.
  - apply IH. intros t' q Hin. apply Hz. now right.
  - intros q. apply Hz. now left.
Qed.

Lemma container_positive (e : element) (r : dict) :
  scrape_product_from_element urljoin e = Some r -> positive_prices r.
Proof.
  intros Hr.
  destruct (build_product_prices e) as (_ & Heq & _).
  apply Heq in Hr as ->. clear Heq.
  intros k v Hk. rewrite (build_product_price_key e k Hk).
  pose proof (set_prices_lookup (found_prices (price_elements e))) as Hl.
  pose proof (found_prices_positive (price_elements e)) as Hpos.
  destruct (found_prices (price_elements e)) as [|p [|q ps]] eqn:E.
  - destruct Hl as (H1 & H2 & H3).
    destruct Hk as [<-|[<-|[<-|[]]]]; congruence.
  - destruct Hl as (H1 & H2 & H3).
    destruct Hk as [<-|[<-|[<-|[]]]]; try congruence.
    rewrite H1. intros [= <-]. exists p. split; [reflexivity|].
    apply Hpos. now left.
  - destruct Hl as (H1 & H2 & H3).
    destruct (py_min_spec p (q :: ps)) as [Hmin _].
    destruct (py_max_spec p (q :: ps)) as [Hmax _].
    destruct Hk as [<-|[<-|[<-|[]]]]; try congruence.
    + rewrite H2. intros [= <-]. eauto.
    + rewrite H3. intros [= <-]. eauto.
Qed.

Lemma ld_product_positive (url : string) (script : ld_block) (r : dict) :
  ld_product py_repr url script = Ok (Some r) -> positive_prices r.
Proof.
  unfold ld_product. destruct (json_loads script) as [data|]; [|discriminate].
  cbn [mbind result_bind]. destruct data as [| | | | |l|d]; try discriminate.
  destruct (assoc "@type" d) as [[| | | |ty| |]|]; try discriminate.
  destruct (String.eqb ty "Product"); [|discriminate].
  destruct (obj_get _ _ _) as [price|]; [|discriminate].
  cbn [mbind result_bind]. unfold dict_get_none, dict_get.
  rewrite !(lookup_insert_ne _ "source") by discriminate.
  rewrite !(lookup_insert_ne _ "link") by discriminate.
  rewrite lookup_insert_eq, lookup_insert_ne by discriminate.
  rewrite lookup_insert_ne, lookup_insert_eq by discriminate.
  cbn [default from_option id].
  destruct (truthy (default VNone (assoc "name" d))); cbn [andb];
    [|discriminate].
  destruct (extract_price (py_str py_repr price)) as [q|] eqn:E;
    cbn [of_price truthy]; [|discriminate].
  destruct (Qeq_bool q 0) eqn:Hz; cbn [negb]; [discriminate|].
  intros [= <-] k v Hk.
  destruct Hk as [<-|[<-|[<-|[]]]].
  - rewrite !(lookup_insert_ne _ "source"), !(lookup_insert_ne _ "link"),
      lookup_insert_eq by discriminate.
    intros [= <-]. exists q. split; [reflexivity|].
    eapply truthy_price_positive; eauto.
  - rewrite !lookup_insert_ne, lookup_empty by discriminate. discriminate.
  - rewrite !lookup_insert_ne, lookup_empty by discriminate. discriminate.
Qed.

Lemma no_price_no_record (e : element) :
  found_prices (price_elements e) = [] ->
  scrape_product_from_element urljoin e = None.
Proof.
  intros Hnone. unfold scrape_product_from_element, dict_get_none, dict_get.
  rewrite (build_product_price_key e "price"), (build_product_price_key e "sale_price")
    by (cbn; auto).
  rewrite Hnone. cbn [set_prices]. rewrite !lookup_empty. cbn [default truthy orb].
  now rewrite andb_false_r.
Qed.

(** C10. A price that parses to 0 counts as no price: no zero is ever
    collected from a container; a container all of whose price texts
    parse to 0, such as ["€0,00"], gives no record; a structured-data
    block whose [offers.price] parses to 0 is dropped; and every [price],
    [sale_price] and [original_price] of a record the extractor emits is
    strictly positive. *)
Theorem zero_price_is_no_price :
  (forall price_elements q,
     In q (collect_prices price_elements []) -> (0 < q)%Q)
  /\ (forall e,
        (forall t q, In t (price_elements e) ->
                     extract_price t = Some q -> (q == 0)%Q) ->
        scrape_product_from_element urljoin e = None)
  /\ (extract_price "€0,00" = Some 0%Q
      /\ scrape_product_from_element urljoin zero_elem = None)
  /\ (forall url d price q,
        assoc "@type" d = Some (VStr "Product") ->
        obj_get (default (VDict []) (assoc "offers" d)) "price" (VStr EmptyString)
        = Ok price ->
        extract_price (py_str py_repr price) = Some q -> (q == 0)%Q ->
        ld_product py_repr url (LdJson (VDict d)) = Ok None)
  /\ (forall url soup products tried,
        extract_products urljoin py_repr url soup = Ok (products, tried) ->
        Forall positive_prices products).
Proof.
  split; [|split; [|split; [|split]]].
  - intros cands q. rewrite collect_prices_found, app_nil_l.
    apply found_prices_positive.
  - intros e Hz. apply no_price_no_record, found_prices_zero, Hz.
  - split; [vm_compute; reflexivity|].
    apply no_price_no_record. vm_compute. reflexivity.
  - intros url d price q Hty Hprice Hq Hz.
    unfold ld_product. cbn [json_loads mbind result_bind].
    rewrite Hty. cbn [String.eqb Ascii.eqb Bool.eqb]. rewrite Hprice.
    cbn [mbind result_bind]. unfold dict_get_none, dict_get.
    rewrite !(lookup_insert_ne _ "source"), !(lookup_insert_ne _ "link"),
      lookup_insert_eq by discriminate.
    rewrite Hq. cbn [default from_option id of_price truthy].
    assert (H : Qeq_bool q 0 = true) by (now apply Qeq_bool_iff).
    rewrite H. cbn [negb]. now rewrite andb_false_r.
  - intros url soup products tried.
    apply extract_products_Forall.
    + apply ld_product_positive.
    + apply container_positive.
Qed.

(** ** The selector cascade *)

Lemma cascade_skip (soup : page) (pre rest tried : list string) :
  (forall s, In s pre -> yields urljoin soup s = []) ->
  cascade urljoin soup (pre ++ rest) [] tried
  = cascade urljoin soup rest [] (tried ++ pre).
Proof.
  revert tried. induction pre as [|sel pre IH]; intros tried Hnone.
  - now rewrite app_nil_r.
  - cbn [app cascade].
    assert (Hsel : yields urljoin soup sel = []) by (apply Hnone; now left).
    unfold yields in Hsel.
    assert (Hrest : forall s, In s pre -> yields urljoin soup s = [])
      by (intros s Hs; apply Hnone; now right).
    destruct (select soup sel) as [|e els].
    + rewrite IH by exact Hrest. now rewrite <- app_assoc.
    + cbn [app]. rewrite Hsel, IH by exact Hrest. now rewrite <- app_assoc.
Qed.

(** C1, as amended.  The cascade stops at the first selector whose matched
    elements (the first ten) yield at least one record, and returns the
    records of that selector alone; selectors that match nothing, or whose
    elements yield no record, are passed over; when no selector yields a
    record all of them are tried.  It runs exactly when the structured
    data gave no record. *)
Theorem cascade_stops_at_first_yield (soup : page) (selectors : list string) :
  (forall pre sel post,
     selectors = pre ++ sel :: post ->
     (forall s, In s pre -> yields urljoin soup s = []) ->
     yields urljoin soup sel <> [] ->
     cascade urljoin soup selectors [] [] = (yields urljoin soup sel, pre ++ [sel]))
  /\ ((forall s, In s selectors -> yields urljoin soup s = []) ->
      cascade urljoin soup selectors [] [] = ([], selectors))
  /\ (forall url,
        scan_json_ld py_repr url (json_scripts soup) [] = Ok [] ->
        extract_products urljoin py_repr url soup
        = Ok (cascade urljoin soup product_selectors [] [])).
Proof.
  split; [|split].
  - intros pre sel post -> Hpre Hsel.
    rewrite cascade_skip by exact Hpre. cbn [cascade app].
    unfold yields in *.
    destruct (select soup sel) as [|e els]; [now elim Hsel|].
    cbn [app].
    destruct (scrape_elements urljoin (e :: els)); [now elim Hsel | reflexivity].
  - intros Hnone.
    rewrite <- (app_nil_r selectors) at 1.
    rewrite cascade_skip by exact Hnone. reflexivity.
  - intros url Hscan. unfold extract_products. now rewrite Hscan.
Qed.

(** ** Structured data *)

(** C5, as amended.  A page whose only structured-data block is the
    widget block gives exactly one record, with title ["Widget"], price
    9.99 and source ["json-ld"], and the selector cascade is not run: no
    selector is tried. *)
Theorem widget_structured_data (url : string) (soup : page) :
  json_scripts soup = [LdJson widget_block] ->
  extract_products urljoin py_repr url soup = Ok ([widget_record url], [])
  /\ widget_record url !! "title" = Some (VStr "Widget")
  /\ widget_record url !! "price" = Some (VFloat (999 # 100))
  /\ widget_record url !! "source" = Some (VStr "json-ld").
Proof.
  intros Hblocks. split.
  - unfold extract_products. rewrite Hblocks. vm_compute. reflexivity.
  - repeat split; vm_compute; reflexivity.
Qed.

(** Blocks that raise [JSONDecodeError] or [AttributeError] are passed
    over. *)
Lemma scan_json_ld_invalid (url : string) (rest : list ld_block)
    (products : list dict) :
  scan_json_ld py_repr url (LdInvalid :: rest) products
  = scan_json_ld py_repr url rest products.
Proof. reflexivity. Qed.

Lemma scan_json_ld_bad_offers (url : string) (d : list (string * pyval))
    (offers : pyval) (rest : list ld_block) (products : list dict) :
  assoc "@type" d = Some (VStr "Product") ->
  assoc "offers" d = Some offers ->
  (forall o, offers <> VDict o) ->
  scan_json_ld py_repr url (LdJson (VDict d) :: rest) products
  = scan_json_ld py_repr url rest products.
Proof.
  intros Hty Hoff Hnd. cbn [scan_json_ld]. unfold ld_product.
  cbn [json_loads mbind result_bind]. rewrite Hty, Hoff.
  cbn [String.eqb Ascii.eqb Bool.eqb default from_option id].
  destruct offers; try reflexivity. now elim (Hnd d0).
Qed.

(** A block whose [script.string] is [None] is not passed over: the
    [TypeError] of [json.loads] leaves the loop and the method. *)
Lemma scan_json_ld_no_string (url : string) (rest : list ld_block)
    (products : list dict) :
  scan_json_ld py_repr url (LdNoString :: rest) products = Raise TypeError.
Proof. reflexivity. Qed.

Lemma extract_products_no_string (url : string) (soup : page)
    (rest : list ld_block) :
  json_scripts soup = LdNoString :: rest ->
  extract_products urljoin py_repr url soup = Raise TypeError.
Proof. intros H. unfold extract_products. now rewrite H. Qed.

(** ** [get_page] and the loop over the URLs *)

Lemma get_page_from_bound (net : nat -> string -> option page) (url : string) (retries remaining attempt clock : nat) :
  (clock <= snd (get_page_from net url retries remaining attempt clock)
   <= clock + remaining)%nat.
Proof.
  revert attempt clock. induction remaining as [|r IH]; intros attempt clock;
    cbn [get_page_from]; [cbn; lia|].
  destruct (net clock url); [cbn; lia|].
  destruct (attempt <? retries - 1)%nat; [|cbn; lia].
  specialize (IH (S attempt) (S clock)). lia.
Qed.

Lemma get_page_from_success (net : nat -> string -> option page) (url : string) (response : page)
    (retries k remaining attempt clock : nat) :
  (k < remaining)%nat -> (attempt + remaining = retries)%nat ->
  (forall j, (j < k)%nat -> net (clock + j) url = None) ->
  net (clock + k) url = Some response ->
  get_page_from net url retries remaining attempt clock
  = (Some response, S (clock + k)).
Proof.
  revert remaining attempt clock.
  induction k as [|k IH]; intros remaining attempt clock Hk Hinv Hfail Hok;
    (destruct remaining as [|r]; [lia|]); cbn [get_page_from].
  - rewrite Nat.add_0_r in Hok. rewrite Hok. now rewrite Nat.add_0_r.
  - rewrite <- (Nat.add_0_r clock) at 1. rewrite (Hfail 0%nat) by lia.
    assert (Hlt : (attempt <? retries - 1)%nat = true) by (apply Nat.ltb_lt; lia).
    rewrite Hlt, (IH r (S attempt) (S clock)).
    + f_equal. lia.
    + lia.
    + lia.
    + intros j Hj. replace (S clock + j)%nat with (clock + S j)%nat by lia.
      apply Hfail. lia.
    + replace (S clock + k)%nat with (clock + S k)%nat by lia. exact Hok.
Qed.

Lemma get_page_from_exhausted (net : nat -> string -> option page) (url : string)
    (retries remaining attempt clock : nat) :
  (attempt + remaining = retries)%nat ->
  (forall j, (j < remaining)%nat -> net (clock + j) url = None) ->
  get_page_from net url retries remaining attempt clock
  = (None, (clock + remaining)%nat).
Proof.
  revert attempt clock. induction remaining as [|r IH];
    intros attempt clock Hinv Hfail; cbn [get_page_from].
  - now rewrite Nat.add_0_r.
  - rewrite <- (Nat.add_0_r clock) at 1. rewrite (Hfail 0%nat) by lia.
    destruct (attempt <? retries - 1)%nat eqn:Hlt.
    + rewrite (IH (S attempt) (S clock)).
      * f_equal. lia.
      * lia.
      * intros j Hj. replace (S clock + j)%nat with (clock + S j)%nat by lia.
        apply Hfail. lia.
    + apply Nat.ltb_ge in Hlt. f_equal. lia.
Qed.

(** C8.  [get_page] makes at most [retries] requests, three by default.
    A URL that fails [k] times, [k] below the default, and then succeeds
    gives the records of the page it finally got, the same as if the first
    request had succeeded; in particular for two failures.  When all
    three requests fail the result is [None], the page gives no record
    and the loop over the URLs goes on with the next one. *)
Theorem get_page_retries (net : nat -> string -> option page)
    (url : string) (clock : nat) :
  (forall retries,
     (clock <= snd (get_page net url retries clock) <= clock + retries)%nat)
  /\ default_retries = 3%nat
  /\ (forall k soup,
        (k < default_retries)%nat ->
        (forall j, (j < k)%nat -> net (clock + j) url = None) ->
        net (clock + k) url = Some soup ->
        scrape_products_page urljoin py_repr net url clock
        = (extract_products urljoin py_repr url soup, S (clock + k))
        /\ forall net' clock',
             net' clock' url = Some soup ->
             fst (scrape_products_page urljoin py_repr net' url clock')
             = fst (scrape_products_page urljoin py_repr net url clock))
  /\ (forall soup,
        net clock url = None -> net (S clock) url = None ->
        net (S (S clock)) url = Some soup ->
        scrape_products_page urljoin py_repr net url clock
        = (extract_products urljoin py_repr url soup, (clock + 3)%nat))
  /\ ((forall j, (j < default_retries)%nat -> net (clock + j) url = None) ->
      get_page net url default_retries clock = (None, (clock + 3)%nat)
      /\ scrape_products_page urljoin py_repr net url clock
         = (Ok ([], []), (clock + 3)%nat)
      /\ forall rest all_products,
           scrape_urls urljoin py_repr net (url :: rest) all_products clock
           = scrape_urls urljoin py_repr net rest all_products (clock + 3)%nat).
Proof.
  assert (Hsucc : forall (n : nat -> string -> option page) c k soup,
            (k < default_retries)%nat ->
            (forall j, (j < k)%nat -> n (c + j)%nat url = None) ->
            n (c + k)%nat url = Some soup ->
            scrape_products_page urljoin py_repr n url c
            = (extract_products urljoin py_repr url soup, S (c + k))).
  { intros n c k soup Hk Hfail Hok. unfold scrape_products_page, get_page.
    now rewrite (get_page_from_success n url soup default_retries k) by
      (assumption || lia). }
  assert (Hnone : (forall j, (j < default_retries)%nat -> net (clock + j) url = None) ->
            get_page net url default_retries clock = (None, (clock + 3)%nat)).
  { intros Hfail. unfold get_page.
    now rewrite get_page_from_exhausted by (assumption || lia). }
  split; [|split; [reflexivity|split; [|split]]].
  - intros retries. apply get_page_from_bound.
  - intros k soup Hk Hfail Hok. split; [now apply Hsucc|].
    intros net' clock' Hok'.
    rewrite (Hsucc net clock k soup Hk Hfail Hok).
    rewrite (Hsucc net' clock' 0%nat soup); [reflexivity | unfold default_retries; lia | | ].
    + intros j Hj. lia.
    + now rewrite Nat.add_0_r.
  - intros soup H0 H1 H2.
    rewrite (Hsucc net clock 2%nat soup).
    + f_equal. lia.
    + unfold default_retries. lia.
    + intros j Hj. destruct j as [|[|j]]; [now rewrite Nat.add_0_r | | lia].
      now replace (clock + 1)%nat with (S clock) by lia.
    + now replace (clock + 2)%nat with (S (S clock)) by lia.
  - intros Hfail. split; [now apply Hnone|].
    assert (Hpage : scrape_products_page urljoin py_repr net url clock
                    = (Ok ([], []), (clock + 3)%nat)).
    { unfold scrape_products_page. now rewrite Hnone. }
    split; [exact Hpage|].
    intros rest all_products. cbn [scrape_urls]. rewrite Hpage.
    now rewrite app_nil_r.
Qed.

(** ** [find_sale_products] *)

(** A record whose [description] key holds [None], as the structured-data
    path stores it when the block has no description, makes the
    classifier raise: [dict.get] only falls back to the empty string when
    the key is missing. *)
Lemma is_on_sale_description_none (product : dict) (title : string) :
  product !! "title" = Some (VStr title) ->
  product !! "description" = Some VNone ->
  is_on_sale product = Raise TypeError.
Proof.
  intros Ht Hd. unfold is_on_sale, dict_get. now rewrite Ht, Hd.
Qed.

Lemma select_on_sale_raises (product : dict) (rest : list dict) :
  is_on_sale product = Raise TypeError ->
  select_on_sale (product :: rest) = Raise TypeError.
Proof.
  intros H. unfold select_on_sale. cbn [classify_from]. now rewrite H.
Qed.

End Properties.

(** C6, where the code departs from it.  The record the extractor builds
    from the widget block carries [description = None]; on the list
    holding just that record [find_sale_products] raises [TypeError]
    instead of returning the empty selection. *)
Theorem find_sale_products_widget_raises :
  extract_products sample_urljoin sample_repr sample_url widget_page
  = Ok ([widget_record sample_url], [])
  /\ widget_record sample_url !! "description" = Some VNone
  /\ is_on_sale (widget_record sample_url) = Raise TypeError
  /\ forall net clock,
       find_sale_products sample_urljoin sample_repr net
         [widget_record sample_url] clock
       = (Raise TypeError, clock).
Proof.
  assert (H : is_on_sale (widget_record sample_url) = Raise TypeError)
    by (vm_compute; reflexivity).
  split; [vm_compute; reflexivity|]. split; [vm_compute; reflexivity|].
  split; [exact H|]. intros net clock. cbn [find_sale_products].
  now rewrite (select_on_sale_raises _ _ H).
Qed.

(** C9, where the code departs from it.  An empty [script] tag in front
    of the widget block: [script.string] is [None], [json.loads] raises
    [TypeError], which the [except] clause does not list, and the page
    gives an exception instead of the widget record. *)
Theorem empty_block_aborts_page :
  json_scripts empty_block_page = [LdNoString; LdJson widget_block]
  /\ extract_products sample_urljoin sample_repr sample_url empty_block_page
     = Raise TypeError
  /\ scrape_urls sample_urljoin sample_repr empty_block_net [sample_url] [] 0
     = (Raise TypeError, 1%nat).
Proof.
  split; [reflexivity|]. split; reflexivity.
Qed.

(** ** The theorems at the sample inputs *)

Lemma container_prices_witness :
  found_prices (price_elements kaas_elem) = [3%Q; 5 # 2]
  /\ exists lo hi,
       build_product sample_urljoin kaas_elem !! "sale_price" = Some (VFloat lo)
       /\ build_product sample_urljoin kaas_elem !! "original_price" = Some (VFloat hi)
       /\ build_product sample_urljoin kaas_elem !! "price" = None
       /\ In lo (found_prices (price_elements kaas_elem))
       /\ In hi (found_prices (price_elements kaas_elem))
       /\ forall x, In x (found_prices (price_elements kaas_elem)) ->
                    (lo <= x /\ x <= hi)%Q.
Proof.
  assert (H : found_prices (price_elements kaas_elem) = [3%Q; 5 # 2])
    by (vm_compute; reflexivity).
  split; [exact H|].
  exact (proj1 (proj2 (proj2 (proj2 (container_prices sample_urljoin sample_repr kaas_elem))))
           3%Q (5 # 2) [] H).
Defined.

Lemma zero_price_is_no_price_witness :
  (forall t q, In t (price_elements zero_elem) ->
               extract_price t = Some q -> (q == 0)%Q)
  /\ scrape_product_from_element sample_urljoin zero_elem = None.
Proof.
  assert (H : forall t q, In t (price_elements zero_elem) ->
                          extract_price t = Some q -> (q == 0)%Q).
  { intros t q [<-|[]]. vm_compute. intros [= <-]. reflexivity. }
  split; [exact H|].
  exact (proj1 (proj2 (zero_price_is_no_price sample_urljoin sample_repr))
           zero_elem H).
Defined.

Lemma cascade_stops_at_first_yield_witness :
  product_selectors
  = [attr_contains "class" "product"]
      ++ attr_contains "class" "item"
      :: [attr_contains "data-testid" "product"; "article"; ".card";
          attr_contains "class" "tile"]
  /\ cascade sample_urljoin two_selector_page product_selectors [] []
     = (yields sample_urljoin two_selector_page (attr_contains "class" "item"),
        [attr_contains "class" "product"] ++ [attr_contains "class" "item"]).
Proof.
  split; [reflexivity|].
  apply (proj1 (cascade_stops_at_first_yield sample_urljoin sample_repr
                  two_selector_page product_selectors)
           [attr_contains "class" "product"] (attr_contains "class" "item")
           [attr_contains "data-testid" "product"; "article"; ".card";
            attr_contains "class" "tile"]).
  - reflexivity.
  - intros s [<-|[]]. vm_compute. reflexivity.
  - vm_compute. discriminate.
Defined.

(** The first selector matches an element of this page, yet the second
    selector is tried as well and the record comes from it. *)
Lemma cascade_counterexample :
  select two_selector_page (attr_contains "class" "product") = [no_title_elem]
  /\ scan_json_ld sample_repr sample_url (json_scripts two_selector_page) [] = Ok []
  /\ extract_products sample_urljoin sample_repr sample_url two_selector_page
     = Ok ([kaas_record],
           [attr_contains "class" "product"; attr_contains "class" "item"]).
Proof.
  split; [reflexivity|]. split; [reflexivity|]. vm_compute. reflexivity.
Qed.

Lemma widget_structured_data_witness :
  json_scripts widget_page = [LdJson widget_block]
  /\ extract_products sample_urljoin sample_repr sample_url widget_page
     = Ok ([widget_record sample_url], []).
Proof.
  split; [reflexivity|].
  exact (proj1 (widget_structured_data sample_urljoin sample_repr sample_url
                  widget_page eq_refl)).
Defined.

(** The record of the widget page is tagged ["json-ld"], not
    ["structured-data"]. *)
Lemma widget_source_counterexample :
  extract_products sample_urljoin sample_repr sample_url widget_page
  = Ok ([widget_record sample_url], [])
  /\ widget_record sample_url !! "source" = Some (VStr "json-ld")
  /\ widget_record sample_url !! "source" <> Some (VStr "structured-data").
Proof.
  split; [vm_compute; reflexivity|]. split; [vm_compute; reflexivity|].
  vm_compute. discriminate.
Qed.

Lemma get_page_retries_witness :
  third_time_net 0 sample_url = None
  /\ third_time_net 1 sample_url = None
  /\ third_time_net 2 sample_url = Some widget_page
  /\ scrape_products_page sample_urljoin sample_repr third_time_net sample_url 0
     = (extract_products sample_urljoin sample_repr sample_url widget_page, 3%nat).
Proof.
  split; [reflexivity|]. split; [reflexivity|]. split; [reflexivity|].
  exact (proj1 (proj2 (proj2 (proj2
           (get_page_retries sample_urljoin sample_repr third_time_net
              sample_url 0))))
           widget_page eq_refl eq_refl eq_refl).
Defined.


Example unique_by_title_two_pages :
  unique_by_title two_page_records [] [] = Ok [kaas_record; brood_record].
Proof. vm_compute. reflexivity. Qed.

(** * Further properties of the scraper *)

#[local] Set Warnings "-clear-no-such-hyp".

(** ** [extract_price], once more *)

(** A price is never negative: a minus sign in front of the text is
    passed over like any other character that is not a digit. *)
Theorem extract_price_unsigned (text : string) :
  (forall q, extract_price text = Some q -> (0 <= q)%Q)
  /\ extract_price ("-" +:+ text) = extract_price text.
Proof.
  split; [intros q; apply extract_price_nonneg|].
  rewrite app_cons, app_empty_l.
  assert (Hn : normalise (String "-" text) = String "-" (normalise text)).
  { unfold normalise, replace. cbn [replace_from String.prefix].
    destruct (ascii_dec "226" "-") as [E|_]; [discriminate E|].
    cbn [replace_from String.prefix].
    destruct (ascii_dec "," "-") as [E|_]; [discriminate E|]. reflexivity. }
  unfold extract_price at 1. rewrite Hn. cbn [re_search_price].
  rewrite re_price_at_digit by reflexivity.
  unfold extract_price. destruct text; reflexivity.
Qed.

Lemma extract_price_unsigned_witness :
  extract_price "-5" = Some 5%Q /\ (0 <= 5)%Q.
Proof.
  assert (H : extract_price "-5" = Some 5%Q) by (vm_compute; reflexivity).
  split; [exact H|].
  exact (proj1 (extract_price_unsigned "-5") _ H).
Defined.


(** ** [get_page] *)

Lemma first_success_or_none (net : nat -> string -> option page)
    (url : string) (clock n : nat) :
  (exists k response,
     (k < n)%nat
     /\ (forall j, (j < k)%nat -> net (clock + j)%nat url = None)
     /\ net (clock + k)%nat url = Some response)
  \/ (forall j, (j < n)%nat -> net (clock + j)%nat url = None).
Proof.
  induction n as [|n [(k & r & Hk & Hfail & Hok)|Hnone]].
  - right. intros j Hj. lia.
  - left. exists k, r. split; [lia | auto].
  - destruct (net (clock + n)%nat url) as [r|] eqn:E.
    + left. exists n, r. auto.
    + right. intros j Hj. destruct (decide (j = n)) as [->|]; [exact E|].
      apply Hnone. lia.
Qed.

(** [get_page] returns the response of the first request that succeeds
    among the first [retries] ones, and asks no further; it returns [None]
    exactly when all [retries] requests failed.  With [retries = 0] no
    request is made. *)
Theorem get_page_first_success (net : nat -> string -> option page)
    (url : string) (retries clock : nat) :
  (forall response clock',
     get_page net url retries clock = (Some response, clock')
     <-> exists k,
           (k < retries)%nat
           /\ (forall j, (j < k)%nat -> net (clock + j)%nat url = None)
           /\ net (clock + k)%nat url = Some response
           /\ clock' = S (clock + k))
  /\ (forall clock',
        get_page net url retries clock = (None, clock')
        <-> (forall j, (j < retries)%nat -> net (clock + j)%nat url = None)
            /\ clock' = (clock + retries)%nat).
Proof.
  assert (Hs : forall k response,
            (k < retries)%nat ->
            (forall j, (j < k)%nat -> net (clock + j)%nat url = None) ->
            net (clock + k)%nat url = Some response ->
            get_page net url retries clock = (Some response, S (clock + k))).
  { intros k r Hk Hfail Hok. unfold get_page.
    apply get_page_from_success; auto with lia. }
  assert (Hn : (forall j, (j < retries)%nat -> net (clock + j)%nat url = None) ->
            get_page net url retries clock = (None, (clock + retries)%nat)).
  { intros Hfail. unfold get_page. apply get_page_from_exhausted; auto with lia. }
  split.
  - intros response clock'. split.
    + intros Hget.
      destruct (first_success_or_none net url clock retries)
        as [(k & r & Hk & Hfail & Hok)|Hnone].
      * rewrite (Hs k r Hk Hfail Hok) in Hget. injection Hget as <- <-.
        exists k. auto.
      * rewrite (Hn Hnone) in Hget. discriminate.
    + intros (k & Hk & Hfail & Hok & ->). now apply Hs.
  - intros clock'. split.
    + intros Hget.
      destruct (first_success_or_none net url clock retries)
        as [(k & r & Hk & Hfail & Hok)|Hnone].
      * rewrite (Hs k r Hk Hfail Hok) in Hget. discriminate.
      * rewrite (Hn Hnone) in Hget. injection Hget as <-. auto.
    + intros [Hfail ->]. now apply Hn.
Qed.

(** ** [scrape_product_from_element] *)

Section Element.

Variable urljoin : string -> string -> string.


Lemma build_product_dom (e : element) :
  dom (build_product urljoin e) ⊆ container_keys.
Proof.
  unfold build_product, set_link, set_image, set_description, set_prices, set_title,
    container_keys.
  destruct (link_elem e) as [[h|]|]; [destruct (opt_truthy (Some h))|..];
    (destruct (img_elem e) as [i|];
     [destruct (or_else (src i) (data_src i)) as [s|];
      [destruct (opt_truthy (Some s))|]|]);
    destruct (desc_elem e);
    destruct (collect_prices (price_elements e) []) as [|p [|q ps]];
    destruct (title_elem e);
    rewrite ?dom_insert_L, ?dom_empty_L; cbn [list_to_set foldr]; set_solver.
Qed.

Lemma positive_truthy (q : Q) : (0 < q)%Q -> truthy (VFloat q) = true.
Proof.
  intros H. cbn [truthy]. destruct (Qeq_bool q 0) eqn:E; [|reflexivity].
  apply Qeq_bool_iff in E. lra.
Qed.



End Element.

(** ** Structured-data blocks *)

Section Blocks.

Variable urljoin : string -> string -> string.
Variable py_repr : pyval -> string.


Lemma ld_product_shape (url : string) (script : ld_block) (r : dict) :
  ld_product py_repr url script = Ok (Some r) ->
  exists d q,
    script = LdJson (VDict d)
    /\ assoc "@type" d = Some (VStr "Product")
    /\ truthy (default VNone (assoc "name" d)) = true
    /\ (0 < q)%Q
    /\ r = <["source" := VStr "json-ld"]>
             (<["link" := VStr url]>
                (<["price" := VFloat q]>
                   (<["description" := default VNone (assoc "description" d)]>
                      (<["title" := default VNone (assoc "name" d)]> ∅)))).
Proof.
  intros Hld. pose proof (ld_product_positive _ _ _ _ Hld) as Hpos. revert Hld.
  unfold ld_product. destruct script as [| |data]; cbn [json_loads mbind result_bind];
    try discriminate.
  destruct data as [| | | | |l|d]; try discriminate.
  destruct (assoc "@type" d) as [[| | | |ty| |]|] eqn:Hty; try discriminate.
  destruct (String.eqb ty "Product") eqn:E; [|discriminate].
  apply String.eqb_eq in E as ->.
  destruct (obj_get _ _ _) as [price|]; [|discriminate].
  cbn [mbind result_bind]. unfold dict_get_none, dict_get.
  rewrite !(lookup_insert_ne _ "source"), !(lookup_insert_ne _ "link"),
    lookup_insert_eq by discriminate.
  rewrite !(lookup_insert_ne _ "price"), !(lookup_insert_ne _ "description"),
    lookup_insert_eq by discriminate.
  cbn [default from_option id].
  destruct (truthy (default VNone (assoc "name" d))) eqn:Hname; cbn [andb];
    [|discriminate].
  destruct (extract_price (py_str py_repr price)) as [q|]; cbn [of_price truthy];
    [|discriminate].
  destruct (negb (Qeq_bool q 0)); [|discriminate].
  intros [= <-]. exists d, q. repeat split; auto.
  destruct (Hpos "price" (VFloat q)) as (q' & [= <-] & Hq); [cbn; auto| |exact Hq].
  now rewrite !(lookup_insert_ne _ "source"), !(lookup_insert_ne _ "link"),
    lookup_insert_eq by discriminate.
Qed.


(** ** [scrape_products_page] after the fetch *)







Lemma container_keys_columns : container_keys ⊆ columns.
Proof.
  unfold container_keys, columns, fieldnames. cbn [list_to_set foldr]. set_solver.
Qed.

Lemma ld_keys_columns : ld_keys ⊆ columns.
Proof.
  unfold ld_keys, columns, fieldnames. cbn [list_to_set foldr]. set_solver.
Qed.

Lemma extract_products_records (url : string) (soup : page)
    (products : list dict) (tried : list string) :
  extract_products urljoin py_repr url soup = Ok (products, tried) ->
  Forall (fun r => valid_record r /\ dom r ⊆ columns) products.
Proof.
  apply extract_products_Forall.
  - intros s r Hr.
    destruct (ld_product_shape url s r Hr) as (d & q & _ & _ & Hname & Hq & ->).
    split; [split|].
    + unfold dict_get_none, dict_get.
      now rewrite !lookup_insert_ne, lookup_insert_eq by discriminate.
    + unfold dict_get_none, dict_get.
      rewrite !(lookup_insert_ne _ "source"), !(lookup_insert_ne _ "link"),
        lookup_insert_eq by discriminate.
      cbn [default from_option id]. now rewrite positive_truthy.
    + etransitivity; [|apply ld_keys_columns].
      unfold ld_keys. rewrite !dom_insert_L, dom_empty_L.
      cbn [list_to_set foldr]. set_solver.
  - intros e r. unfold scrape_product_from_element.
    destruct (truthy (dict_get_none (build_product urljoin e) "title")) eqn:Ht;
      cbn [andb]; [|discriminate].
    destruct (_ || _) eqn:Hp; [|discriminate]. intros [= <-].
    split; [split; assumption|].
    etransitivity; [apply build_product_dom | apply container_keys_columns].
Qed.

(** Every record a page gives passed one of the two filters: its title is
    truthy and so is its [price] or its [sale_price]; and each of its keys
    is one of the ten CSV columns. *)
Theorem extract_products_valid (url : string) (soup : page)
    (products : list dict) (tried : list string) :
  extract_products urljoin py_repr url soup = Ok (products, tried) ->
  Forall (fun r => valid_record r /\ dom r ⊆ columns) products.
Proof. apply extract_products_records. Qed.
End Blocks.

(** ** [is_on_sale] *)

Lemma is_on_sale_run (product : dict) (text : string) :
  sale_text product text ->
  is_on_sale product =
  match re_search_discount text with
  | Some ds => Ok (true, <["discount_percentage" := VInt (py_int ds)]> product)
  | None =>
      if existsb (fun keyword => contains keyword text) sale_keywords
      then Ok (true, product)
      else Ok (both_prices product, product)
  end.
Proof.
  intros (title & description & Ht & Hd & ->).
  unfold is_on_sale. rewrite Ht, Hd. cbn [py_add_str mbind result_bind py_lower].
  rewrite app_assoc_s. destruct (re_search_discount _); [reflexivity|].
  destruct (existsb _ _); [reflexivity|].
  unfold both_prices. now destruct (_ && _).
Qed.


Lemma sale_text_insert (product : dict) (text k : string) (v : pyval) :
  k <> "title" -> k <> "description" ->
  sale_text product text -> sale_text (<[k := v]> product) text.
Proof.
  intros Hk1 Hk2 (title & description & Ht & Hd & ->).
  exists title, description. unfold dict_get in *.
  rewrite !lookup_insert_ne by congruence. auto.
Qed.


(** Classifying a record a second time changes nothing: the verdict is
    the same and the record stays as the first run left it. *)
Theorem is_on_sale_idempotent (product product' : dict) (b : bool) :
  is_on_sale product = Ok (b, product') ->
  is_on_sale product' = Ok (b, product').
Proof.
  intros Hrun.
  assert (Hc : classifiable product).
  { destruct (is_on_sale product) as [[b' p']|e] eqn:E; [|discriminate].
    unfold classifiable, sale_text, is_on_sale in *.
    destruct (dict_get product "title" _) as [| | | |t| |];
      cbn [py_add_str mbind result_bind] in E; try discriminate.
    destruct (dict_get product "description" _) as [| | | |d| |];
      cbn [py_add_str mbind result_bind] in E; try discriminate.
    eauto 6. }
  destruct Hc as [text Htext]. rewrite (is_on_sale_run _ _ Htext) in Hrun.
  destruct (re_search_discount text) as [ds|] eqn:Hds.
  - injection Hrun as <- <-.
    rewrite (is_on_sale_run _ text), Hds by
      (apply sale_text_insert; [discriminate|discriminate|exact Htext]).
    now rewrite insert_insert_eq.
  - assert (product' = product) as ->
      by (destruct (existsb _ _); now injection Hrun).
    rewrite (is_on_sale_run _ _ Htext), Hds. exact Hrun.
Qed.


Lemma lower_ascii_idempotent (c : ascii) : lower_ascii (lower_ascii c) = lower_ascii c.
Proof. destruct c as [[] [] [] [] [] [] [] []]; reflexivity. Qed.

Lemma lower_idempotent (s : string) : lower (lower s) = lower s.
Proof.
  induction s as [|c s IH]; [reflexivity|].
  cbn [lower]. now rewrite lower_ascii_idempotent, IH.
Qed.

Lemma lower_app (a b : string) : lower (a +:+ b) = lower a +:+ lower b.
Proof.
  induction a as [|c a IH]; [reflexivity|].
  rewrite app_cons. cbn [lower]. now rewrite IH, app_cons.
Qed.

(** The classifier does not see letter case: with the title put in lower
    case the verdict is the same, and so is the discount it sets. *)
Theorem is_on_sale_case_insensitive (product : dict) (title text : string) :
  product !! "title" = Some (VStr title) ->
  sale_text product text ->
  sale_text (<["title" := VStr (lower title)]> product) text
  /\ forall b product',
       is_on_sale product = Ok (b, product') ->
       exists product'',
         is_on_sale (<["title" := VStr (lower title)]> product) = Ok (b, product'')
         /\ product'' !! "discount_percentage" = product' !! "discount_percentage".
Proof.
  intros Ht Htext.
  assert (Htext' : sale_text (<["title" := VStr (lower title)]> product) text).
  { destruct Htext as (t & d & Ht' & Hd & ->). unfold dict_get in Ht'.
    rewrite Ht in Ht'. injection Ht' as <-.
    exists (lower title), d. unfold dict_get in *.
    rewrite lookup_insert_eq, lookup_insert_ne by discriminate.
    split; [reflexivity|]. split; [exact Hd|].
    now rewrite !lower_app, lower_idempotent. }
  split; [exact Htext'|]. intros b product'.
  rewrite (is_on_sale_run _ _ Htext), (is_on_sale_run _ _ Htext').
  assert (Hboth : both_prices (<["title" := VStr (lower title)]> product)
                  = both_prices product).
  { unfold both_prices, dict_get_none, dict_get.
    now rewrite !lookup_insert_ne by discriminate. }
  rewrite Hboth.
  destruct (re_search_discount text) as [ds|].
  - intros [= <- <-]. eexists. split; [reflexivity|].
    now rewrite !lookup_insert_eq.
  - destruct (existsb _ _); intros [= <- <-]; eexists; (split; [reflexivity|]);
      now rewrite lookup_insert_ne by discriminate.
Qed.

(** ** Deduplication, for arbitrary titles *)

Lemma unique_by_title_keep_new (l : list dict) (seen : list pyval)
    (acc : list dict) :
  Forall hashable_title l ->
  unique_by_title l seen acc = Ok (acc ++ keep_new seen l).
Proof.
  intros Hall. revert seen acc.
  induction Hall as [|r l (t & Ht & Hh) _ IH]; intros seen acc;
    cbn [unique_by_title keep_new].
  - now rewrite app_nil_r.
  - rewrite Ht, Hh. destruct (existsb (py_eqb t) seen); [apply IH|].
    rewrite IH, <- app_assoc. reflexivity.
Qed.

Lemma unique_by_title_ok_hashable (l : list dict) (seen : list pyval)
    (acc unique : list dict) :
  unique_by_title l seen acc = Ok unique -> Forall hashable_title l.
Proof.
  revert seen acc. induction l as [|r l IH]; intros seen acc; [constructor|].
  cbn [unique_by_title]. destruct (r !! "title") as [t|] eqn:Ht; [|discriminate].
  destruct (hashable t) eqn:Hh; [|discriminate].
  intros Hrun. constructor; [exists t; auto|].
  destruct (existsb (py_eqb t) seen); eapply IH; eauto.
Qed.

Lemma unique_by_title_app (pre rest : list dict) (seen : list pyval)
    (acc : list dict) :
  Forall hashable_title pre ->
  exists seen' acc',
    unique_by_title (pre ++ rest) seen acc = unique_by_title rest seen' acc'.
Proof.
  intros Hall. revert seen acc.
  induction Hall as [|r l (t & Ht & Hh) _ IH]; intros seen acc; [eauto|].
  cbn [app unique_by_title]. rewrite Ht, Hh.
  destruct (existsb (py_eqb t) seen); apply IH.
Qed.

Lemma keep_new_sublist (seen : list pyval) (l : list dict) :
  sublist (keep_new seen l) l.
Proof.
  revert seen. induction l as [|r l IH]; intros seen; cbn [keep_new];
    [constructor|].
  destruct (r !! "title") as [t|]; [|apply sublist_cons, IH].
  destruct (existsb (py_eqb t) seen); [apply sublist_cons, IH | apply sublist_skip, IH].
Qed.

Lemma keep_new_fresh (seen : list pyval) (l : list dict) (x : dict) :
  In x (keep_new seen l) ->
  exists t, x !! "title" = Some t /\ existsb (py_eqb t) seen = false.
Proof.
  revert seen. induction l as [|r l IH]; intros seen; cbn [keep_new]; [easy|].
  destruct (r !! "title") as [t|] eqn:Ht; [|apply IH].
  destruct (existsb (py_eqb t) seen) eqn:E; [apply IH|].
  intros [<-|Hin]; [eauto|].
  destruct (IH _ Hin) as (t' & Hx & Hfresh). exists t'. split; [exact Hx|].
  cbn [existsb] in Hfresh. now apply orb_false_elim in Hfresh as [_ ?].
Qed.

Lemma keep_new_distinct (seen : list pyval) (l : list dict) :
  distinct_titles (keep_new seen l).
Proof.
  revert seen. induction l as [|r l IH]; intros seen; cbn [keep_new]; [exact I|].
  destruct (r !! "title") as [t|] eqn:Ht; [|apply IH].
  destruct (existsb (py_eqb t) seen); [apply IH|].
  split; [|apply IH].
  intros b ta tb Hb Hta Htb.
  destruct (keep_new_fresh _ _ _ Hb) as (t' & Hb' & Hfresh).
  assert (ta = t) as -> by congruence. assert (tb = t') as -> by congruence.
  cbn [existsb] in Hfresh. now apply orb_false_elim in Hfresh as [? _].
Qed.

Lemma keep_new_again (seen : list pyval) (l : list dict) :
  keep_new seen (keep_new seen l) = keep_new seen l.
Proof.
  revert seen. induction l as [|r l IH]; intros seen; cbn [keep_new]; [reflexivity|].
  destruct (r !! "title") as [t|] eqn:Ht; [|apply IH].
  destruct (existsb (py_eqb t) seen) eqn:E; [apply IH|].
  cbn [keep_new]. now rewrite Ht, E, IH.
Qed.

(** Whatever the titles are, a deduplication that ends without exception
    returns a sublist of its input in which no title equals an earlier
    one, and deduplicating that result again returns it unchanged. *)
Theorem unique_by_title_distinct (all_products unique_products : list dict) :
  unique_by_title all_products [] [] = Ok unique_products ->
  sublist unique_products all_products
  /\ distinct_titles unique_products
  /\ unique_by_title unique_products [] [] = Ok unique_products.
Proof.
  intros Hrun.
  pose proof (unique_by_title_ok_hashable _ _ _ _ Hrun) as Hall.
  rewrite (unique_by_title_keep_new _ [] [] Hall) in Hrun.
  injection Hrun as <-. cbn [app].
  split; [apply keep_new_sublist|]. split; [apply keep_new_distinct|].
  rewrite (unique_by_title_keep_new _ [] []).
  - cbn [app]. now rewrite keep_new_again.
  - apply Forall_forall. intros x Hx.
    eapply Forall_forall; [exact Hall|].
    eapply elem_of_sublist; [exact Hx | apply keep_new_sublist].
Qed.

(** The deduplication ends without exception exactly when every record
    has a title that is hashable.  The first record that has not decides
    the exception: [KeyError] when it has no title key, [TypeError] when
    its title is a list or a dict. *)
Theorem unique_by_title_exceptions (all_products : list dict) :
  (Forall hashable_title all_products
   <-> exists unique_products,
         unique_by_title all_products [] [] = Ok unique_products)
  /\ (forall pre r post,
        all_products = pre ++ r :: post -> Forall hashable_title pre ->
        (r !! "title" = None ->
         unique_by_title all_products [] [] = Raise KeyError)
        /\ (forall t, r !! "title" = Some t -> hashable t = false ->
            unique_by_title all_products [] [] = Raise TypeError)).
Proof.
  split.
  - split.
    + intros Hall. rewrite (unique_by_title_keep_new _ [] [] Hall). eauto.
    + intros [u Hu]. eapply unique_by_title_ok_hashable; eauto.
  - intros pre r post -> Hpre.
    destruct (unique_by_title_app pre (r :: post) [] [] Hpre) as (seen & acc & ->).
    cbn [unique_by_title]. split.
    + now intros ->.
    + intros t -> Hh. now rewrite Hh.
Qed.

(** ** [find_product_pages], the loop over the URLs, [scrape_all_products] *)

Section Aggregate.

Variable urljoin : string -> string -> string.
Variable py_repr : pyval -> string.
Variable net : nat -> string -> option page.

Lemma add_links_spec (hrefs urls : list string) :
  exists added,
    add_links urljoin hrefs urls = urls ++ added
    /\ Forall (fun u => exists href,
                 In href hrefs /\ category_link href = true
                 /\ u = urljoin base_url href) added
    /\ (NoDup urls -> NoDup (urls ++ added)).
Proof.
  revert urls. induction hrefs as [|href rest IH]; intros urls; cbn [add_links].
  - exists []. rewrite app_nil_r. split; [reflexivity|]. split; [constructor|auto].
  - assert (Hweak : forall added,
              Forall (fun u => exists href,
                        In href rest /\ category_link href = true
                        /\ u = urljoin base_url href) added ->
              Forall (fun u => exists href0,
                        In href0 (href :: rest) /\ category_link href0 = true
                        /\ u = urljoin base_url href0) added).
    { intros added Hf. eapply Forall_impl; [exact Hf|]. intros u (h & Hh & Hk & ->).
      exists h. split; [now right | auto]. }
    fold (category_link href). destruct (category_link href) eqn:Hk.
    + destruct (existsb (String.eqb (urljoin base_url href)) urls) eqn:Hin.
      * destruct (IH urls) as (added & -> & Hall & Hnd).
        exists added. split; [reflexivity|]. split; [now apply Hweak | exact Hnd].
      * destruct (IH (urls ++ [urljoin base_url href])) as (added & -> & Hall & Hnd).
        exists (urljoin base_url href :: added). rewrite <- app_assoc.
        split; [reflexivity|]. split.
        -- constructor; [exists href; split; [now left | auto] | now apply Hweak].
        -- intros Hurls.
           replace (urls ++ urljoin base_url href :: added)
             with ((urls ++ [urljoin base_url href]) ++ added)
             by now rewrite <- app_assoc.
           apply Hnd.
           apply NoDup_app. split; [exact Hurls|]. split; [|apply NoDup_singleton].
           intros x Hx Hx'. apply list_elem_of_singleton in Hx' as ->.
           assert (existsb (String.eqb (urljoin base_url href)) urls = true);
             [|congruence].
           apply existsb_exists. exists (urljoin base_url href).
           split; [now apply list_elem_of_In | apply String.eqb_refl].
    + destruct (IH urls) as (added & -> & Hall & Hnd).
      exists added. split; [reflexivity|]. split; [now apply Hweak | exact Hnd].
Qed.

Lemma get_page_default_progress (url : string) (clock : nat) :
  (clock < snd (get_page net url default_retries clock) <= clock + 3)%nat.
Proof.
  split; [|apply (get_page_from_bound net url default_retries default_retries 0 clock)].
  unfold get_page, default_retries. cbn [get_page_from].
  repeat (destruct (net _ url); [cbn; lia|]). cbn. lia.
Qed.

Lemma find_product_pages_bound (clock : nat) :
  (length (fst (find_product_pages urljoin net clock)) <= 5)%nat
  /\ (clock < snd (find_product_pages urljoin net clock) <= clock + 3)%nat.
Proof.
  unfold find_product_pages.
  pose proof (get_page_default_progress (base_url +:+ "/onze-producten") clock) as Hc.
  destruct (get_page net _ default_retries clock) as [[soup|] clock'];
    cbn [fst snd] in *; (split; [rewrite length_take; lia | exact Hc]).
Qed.

(** The URLs of a run: at most five, without repetition, the two seed
    URLs first; every other one is [urljoin] of the base URL and an [href]
    of the listing page whose lowercase form holds ["product"],
    ["categorie"] or ["category"].  When the listing page cannot be
    fetched the seeds are all there is.  Finding them costs between one
    and three requests. *)
Theorem find_product_pages_urls (clock : nat) :
  let listing := get_page net (base_url +:+ "/onze-producten") default_retries clock in
  let urls := fst (find_product_pages urljoin net clock) in
  seed_urls `prefix_of` urls
  /\ (length urls <= 5)%nat
  /\ NoDup urls
  /\ (fst listing = None -> urls = seed_urls)
  /\ (forall u, In u urls ->
        In u seed_urls
        \/ exists soup href,
             fst listing = Some soup /\ In href (hrefs soup)
             /\ category_link href = true /\ u = urljoin base_url href)
  /\ snd (find_product_pages urljoin net clock) = snd listing
  /\ (clock < snd listing <= clock + 3)%nat.
Proof.
  intros listing urls.
  assert (Hseeds : NoDup seed_urls).
  { apply NoDup_cons. split; [|apply NoDup_singleton].
    intros H. apply list_elem_of_singleton in H. vm_compute in H. discriminate. }
  pose proof (get_page_default_progress (base_url +:+ "/onze-producten") clock) as Hc.
  subst urls. unfold find_product_pages. fold seed_urls. fold listing in Hc |- *.
  destruct listing as [[soup|] clock'] eqn:E; cbn [fst snd] in *.
  - destruct (add_links_spec (hrefs soup) seed_urls) as (added & -> & Hall & Hnd).
    split.
    { exists (take 3 added). now rewrite take_app. }
    split; [rewrite length_take; lia|].
    split; [apply (sublist_NoDup _ (seed_urls ++ added));
            [now apply Hnd | apply sublist_take]|].
    split; [discriminate|]. split; [|auto].
    intros u Hu. apply list_elem_of_In in Hu.
    pose proof (elem_of_sublist _ _ _ Hu (sublist_take (seed_urls ++ added) 5)) as Hu'.
    apply elem_of_app in Hu' as [Hs|Ha]; [left; now apply list_elem_of_In|].
    right. eapply Forall_forall in Hall as (href & Hh & Hk & ->); [|exact Ha].
    exists soup, href. auto.
  - split; [reflexivity|]. split; [cbn; lia|]. split; [exact Hseeds|].
    split; [reflexivity|]. split; [|auto].
    intros u Hu. now left.
Qed.

Lemma scrape_products_page_bound (url : string) (clock : nat) :
  (clock < snd (scrape_products_page urljoin py_repr net url clock) <= clock + 3)%nat.
Proof.
  unfold scrape_products_page.
  pose proof (get_page_default_progress url clock) as Hc.
  now destruct (get_page net url default_retries clock) as [[soup|] clock'].
Qed.

Lemma scrape_products_page_records (url : string) (clock : nat)
    (products : list dict) (tried : list string) :
  fst (scrape_products_page urljoin py_repr net url clock) = Ok (products, tried) ->
  Forall (fun r => valid_record r /\ dom r ⊆ columns) products.
Proof.
  unfold scrape_products_page.
  destruct (get_page net url default_retries clock) as [[soup|] clock']; cbn [fst].
  - apply extract_products_records.
  - intros [= <- _]. constructor.
Qed.

Lemma scrape_urls_spec (urls : list string) (acc : list dict) (clock : nat) :
  (clock <= snd (scrape_urls urljoin py_repr net urls acc clock)
   <= clock + 3 * length urls)%nat
  /\ forall all_products,
       fst (scrape_urls urljoin py_repr net urls acc clock) = Ok all_products ->
       exists added,
         all_products = acc ++ added
         /\ Forall (fun r => valid_record r /\ dom r ⊆ columns) added.
Proof.
  revert acc clock. induction urls as [|url rest IH]; intros acc clock;
    cbn [scrape_urls length].
  - split; [cbn; lia|]. intros all [= <-]. exists []. now rewrite app_nil_r.
  - pose proof (scrape_products_page_bound url clock) as Hc.
    pose proof (scrape_products_page_records url clock) as Hr.
    destruct (scrape_products_page urljoin py_repr net url clock)
      as [[[products tried]|e] clock']; cbn [fst snd] in *.
    + destruct (IH (acc ++ products) clock') as [Hb Hall]. split; [lia|].
      intros all Hrun. destruct (Hall all Hrun) as (added & -> & Hadded).
      exists (products ++ added). rewrite app_assoc. split; [reflexivity|].
      apply Forall_app. split; [now eapply Hr | exact Hadded].
    + split; [lia | discriminate].
Qed.

(** The loop over the URLs makes at most three requests per URL; when it
    ends without exception what was accumulated before is still there, in
    front, and every record added passed the filters and has only CSV
    columns as keys. *)
Theorem scrape_urls_requests (urls : list string) (acc : list dict) (clock : nat) :
  (clock <= snd (scrape_urls urljoin py_repr net urls acc clock)
   <= clock + 3 * length urls)%nat
  /\ forall all_products,
       fst (scrape_urls urljoin py_repr net urls acc clock) = Ok all_products ->
       exists added,
         all_products = acc ++ added
         /\ Forall (fun r => valid_record r /\ dom r ⊆ columns) added.
Proof. apply scrape_urls_spec. Qed.

(** A whole run makes at least one and at most eighteen requests.  When
    it ends without exception no record of the result has a title equal
    to that of an earlier one, and every record passed the filters and has
    only CSV columns as keys. *)
Theorem scrape_all_products_run (clock : nat) :
  (clock < snd (scrape_all_products urljoin py_repr net clock) <= clock + 18)%nat
  /\ forall products,
       fst (scrape_all_products urljoin py_repr net clock) = Ok products ->
       distinct_titles products
       /\ Forall (fun r => valid_record r /\ dom r ⊆ columns) products.
Proof.
  unfold scrape_all_products.
  destruct (find_product_pages_bound clock) as [Hlen Hc].
  destruct (find_product_pages urljoin net clock) as [urls clock1]; cbn [fst snd] in *.
  destruct (scrape_urls_spec urls [] clock1) as [Hb Hall].
  destruct (scrape_urls urljoin py_repr net urls [] clock1) as [[all|e] clock2];
    cbn [fst snd] in *.
  - split; [lia|]. intros products Hrun.
    destruct (Hall all eq_refl) as (added & -> & Hadded). cbn [app] in *.
    pose proof (unique_by_title_ok_hashable _ _ _ _ Hrun) as Hh.
    rewrite (unique_by_title_keep_new _ [] [] Hh) in Hrun.
    injection Hrun as <-. cbn [app].
    split; [apply keep_new_distinct|].
    apply Forall_forall. intros x Hx.
    rewrite Forall_forall in Hadded. apply Hadded.
    eapply elem_of_sublist; [exact Hx | apply keep_new_sublist].
  - split; [lia | discriminate].
Qed.

End Aggregate.

(** ** [find_sale_products], once more *)

Lemma is_on_sale_ok_classifiable (product product' : dict) (b : bool) :
  is_on_sale product = Ok (b, product') -> classifiable product.
Proof.
  intros Hrun. unfold classifiable, sale_text, is_on_sale in *.
  destruct (dict_get product "title" _) as [| | | |t| |];
    cbn [py_add_str mbind result_bind] in Hrun; try discriminate.
  destruct (dict_get product "description" _) as [| | | |d| |];
    cbn [py_add_str mbind result_bind] in Hrun; try discriminate.
  eauto 6.
Qed.

Lemma classify_from_ok (i : nat) (todo done_ store : list dict)
    (sale_products sale : list (nat * dict)) :
  classify_from i todo done_ sale_products = Ok (store, sale) ->
  Forall classifiable todo.
Proof.
  revert i done_ sale_products. induction todo as [|r todo IH];
    intros i done_ sale_products; [constructor|].
  cbn [classify_from].
  destruct (is_on_sale r) as [[[] r']|e] eqn:E; [| |discriminate];
    intros Hrun; (constructor; [eapply is_on_sale_ok_classifiable; eauto|]);
    eapply IH; eauto.
Qed.

Lemma outcome_classifiable (r : dict) :
  classifiable r -> classifiable (snd (outcome r)).
Proof.
  intros Hc. unfold outcome.
  destruct (is_on_sale_classifiable r Hc) as (b & r' & -> & Hr').
  assert (Hc' : classifiable r').
  { destruct Hr' as [->|[n ->]]; [exact Hc|].
    destruct Hc as [text Htext]. exists text.
    apply sale_text_insert; [discriminate|discriminate|exact Htext]. }
  destruct b; cbn [snd]; [|exact Hc'].
  destruct Hc' as [text Htext]. exists text.
  apply sale_text_insert; [discriminate|discriminate|exact Htext].
Qed.

(** The record a classification leaves behind is classified the same way
    and left alone by a second one. *)
Lemma outcome_again (r : dict) :
  classifiable r -> outcome (snd (outcome r)) = outcome r.
Proof.
  intros [text Htext]. unfold outcome at 2 3.
  rewrite (is_on_sale_run _ _ Htext).
  assert (Hmark : forall m : dict,
            sale_text m text -> sale_text (<["on_sale" := VBool true]> m) text)
    by (intros m; apply sale_text_insert; discriminate).
  assert (Hboth : forall m : dict,
            both_prices (<["on_sale" := VBool true]> m) = both_prices m).
  { intros m. unfold both_prices, dict_get_none, dict_get.
    now rewrite !lookup_insert_ne by discriminate. }
  destruct (re_search_discount text) as [ds|] eqn:Hds; cbn [snd].
  - assert (Ht : sale_text (<["discount_percentage" := VInt (py_int ds)]> r) text)
      by (apply sale_text_insert; [discriminate|discriminate|exact Htext]).
    unfold outcome. rewrite (is_on_sale_run _ _ (Hmark _ Ht)), Hds.
    f_equal.
    rewrite (insert_insert_ne _ "discount_percentage" "on_sale") by discriminate.
    now rewrite !insert_insert_eq.
  - destruct (existsb (fun keyword => contains keyword text) sale_keywords) eqn:Hk;
      cbn [snd].
    + unfold outcome. rewrite (is_on_sale_run _ _ (Hmark _ Htext)), Hds, Hk.
      now rewrite insert_insert_eq.
    + destruct (both_prices r) eqn:Hb; cbn [snd]; unfold outcome.
      * rewrite (is_on_sale_run _ _ (Hmark _ Htext)), Hds, Hk, Hboth, Hb.
        now rewrite insert_insert_eq.
      * rewrite (is_on_sale_run _ _ Htext), Hds, Hk, Hb. reflexivity.
Qed.

Lemma accepted_again (i : nat) (l : list dict) :
  Forall classifiable l ->
  accepted i (map (fun r => snd (outcome r)) l) = accepted i l.
Proof.
  intros Hall. revert i. induction Hall as [|r l Hr _ IH]; intros i; [reflexivity|].
  cbn [map accepted]. rewrite (outcome_again r Hr), IH. reflexivity.
Qed.

Lemma select_on_sale_inv (products store : list dict) (sale : list (nat * dict)) :
  select_on_sale products = Ok (store, sale) ->
  Forall classifiable products
  /\ store = map (fun r => snd (outcome r)) products
  /\ exists keyed,
       with_keys (accepted 0 products) = Ok keyed
       /\ sale = map snd (sort_by_key keyed).
Proof.
  unfold select_on_sale. intros Hrun.
  destruct (classify_from 0 products [] []) as [[store' sale']|e] eqn:E;
    [|discriminate].
  pose proof (classify_from_ok _ _ _ _ _ _ E) as Hc.
  rewrite (classify_from_accepted 0 products [] [] Hc) in E.
  injection E as <- <-. cbn [mbind result_bind app] in Hrun.
  destruct (with_keys (accepted 0 products)) as [keyed|e] eqn:Hk; [|discriminate].
  cbn [mbind result_bind] in Hrun. injection Hrun as <- <-.
  split; [exact Hc|]. split; [reflexivity|]. eauto.
Qed.

Lemma select_on_sale_again (products store : list dict) (sale : list (nat * dict)) :
  select_on_sale products = Ok (store, sale) ->
  select_on_sale store = Ok (store, sale).
Proof.
  intros Hrun.
  destruct (select_on_sale_inv _ _ _ Hrun) as (Hc & -> & keyed & Hk & ->).
  assert (Hc' : Forall classifiable (map (fun r => snd (outcome r)) products)).
  { apply Forall_fmap. eapply Forall_impl; [exact Hc|].
    intros r Hr. now apply outcome_classifiable. }
  unfold select_on_sale.
  rewrite (classify_from_accepted 0 _ [] [] Hc'). cbn [mbind result_bind app].
  rewrite (accepted_again 0 products Hc), Hk. cbn [mbind result_bind].
  do 2 f_equal. rewrite map_map.
  apply map_ext_in. intros r Hr.
  rewrite outcome_again; [reflexivity|].
  eapply Forall_forall; [exact Hc|]. now apply list_elem_of_In.
Qed.

Section Sale.

Variable urljoin : string -> string -> string.
Variable py_repr : pyval -> string.
Variable net : nat -> string -> option page.

(** On a product list that is not empty the method makes no request, and
    calling it again on the list it left behind returns the same
    selection and leaves the list unchanged. *)
Theorem find_sale_products_twice (self_products store : list dict)
    (sale : list (nat * dict)) (clock clock' : nat) :
  self_products <> [] ->
  find_sale_products urljoin py_repr net self_products clock
  = (Ok (store, sale), clock') ->
  clock' = clock
  /\ length store = length self_products
  /\ find_sale_products urljoin py_repr net store clock = (Ok (store, sale), clock).
Proof.
  intros Hne Hrun. destruct self_products as [|p ps]; [congruence|].
  cbn [find_sale_products] in Hrun. injection Hrun as Hrun <-.
  split; [reflexivity|].
  destruct (select_on_sale_inv _ _ _ Hrun) as (_ & Hstore & _).
  split; [rewrite Hstore; apply length_map|].
  apply select_on_sale_again in Hrun.
  rewrite Hstore in *. cbn [map] in *. cbn [find_sale_products]. now rewrite Hrun.
Qed.

End Sale.

(** The classification adds only [discount_percentage] and [on_sale]:
    records whose keys are CSV columns keep that property, in the list
    left behind and in the selection. *)
Theorem select_on_sale_columns (products store : list dict)
    (sale : list (nat * dict)) :
  Forall (fun r => dom r ⊆ columns) products ->
  select_on_sale products = Ok (store, sale) ->
  Forall (fun r => dom r ⊆ columns) store
  /\ Forall (fun x => dom (snd x) ⊆ columns) sale.
Proof.
  intros Hcols Hrun.
  destruct (select_on_sale_inv _ _ _ Hrun) as (Hc & -> & keyed & Hk & ->).
  assert (Hout : forall r, classifiable r -> dom r ⊆ columns ->
            dom (snd (outcome r)) ⊆ columns).
  { intros r Hr Hd. unfold outcome.
    destruct (is_on_sale_classifiable r Hr) as (b & r' & -> & Hr').
    assert (Hd' : dom r' ⊆ columns).
    { destruct Hr' as [->|[n ->]]; [exact Hd|].
      rewrite dom_insert_L. unfold columns, fieldnames in *.
      cbn [list_to_set foldr] in *. set_solver. }
    destruct b; cbn [snd]; [|exact Hd'].
    rewrite dom_insert_L. unfold columns, fieldnames in *.
    cbn [list_to_set foldr] in *. set_solver. }
  assert (Hstore : Forall (fun r => dom r ⊆ columns)
                     (map (fun r => snd (outcome r)) products)).
  { apply Forall_fmap. rewrite Forall_forall in Hc, Hcols |- *.
    intros r Hr. cbn. apply Hout; auto. }
  split; [exact Hstore|].
  assert (Hacc : Forall (fun x => dom (snd x) ⊆ columns) (accepted 0 products)).
  { apply Forall_forall. intros x Hx.
    apply list_elem_of_In, accepted_elem in Hx as (r0 & Hl & _ & _ & ->).
    apply list_elem_of_lookup_2 in Hl.
    rewrite Forall_forall in Hc, Hcols. apply Hout; auto. }
  assert (Hkeyed : keyed = map with_key (accepted 0 products)).
  { clear -Hk. revert keyed Hk. induction (accepted 0 products) as [|x l IH];
      intros keyed; cbn [with_keys map].
    - now intros [= <-].
    - unfold with_key at 1, key_of.
      destruct (sort_key (snd x)) as [k|]; cbn [mbind result_bind]; [|discriminate].
      destruct (with_keys l) as [ks|]; cbn [mbind result_bind]; [|discriminate].
      intros [= <-]. now rewrite (IH ks). }
  subst keyed. apply Forall_forall. intros x Hx.
  apply list_elem_of_In, in_map_iff in Hx as (y & <- & Hy).
  apply list_elem_of_In in Hy. rewrite sort_by_key_perm in Hy.
  apply list_elem_of_In, in_map_iff in Hy as (z & <- & Hz).
  rewrite Forall_forall in Hacc. apply Hacc. now apply list_elem_of_In.
Qed.

(** ** [save_to_csv] *)

Lemma read_row_lookup (product : dict) (header : list string) (k : string) :
  In k header ->
  read_row header (map (fun field => dict_get product field (VStr EmptyString)) header)
    !! k
  = Some (dict_get product k (VStr EmptyString)).
Proof.
  unfold read_row. induction header as [|f header IH]; intros Hin; [easy|].
  cbn [map zip zip_with list_to_map foldr].
  destruct (decide (f = k)) as [->|Hne].
  - apply lookup_insert_eq.
  - rewrite lookup_insert_ne by exact Hne. apply IH.
    destruct Hin; [congruence | assumption].
Qed.

(** Nothing is written for an empty product list.  Otherwise the file
    carries the given name, or the timestamped default when none or an
    empty one is given, the fixed header, and one row of ten cells per
    product in the same order; read back along the header, a row gives
    every field of its product under the field's column, provided the
    product has no key outside the columns, and the empty string in the
    columns the product lacks. *)
Theorem save_to_csv_rows (now : string) (products : list dict)
    (filename : option string) :
  (products = [] -> save_to_csv now products filename = None)
  /\ (products <> [] ->
      exists file,
        save_to_csv now products filename = Some file
        /\ csv_name file
           = (if opt_truthy filename then default EmptyString filename
              else "crisp_products_" +:+ now +:+ ".csv")
        /\ csv_header file = fieldnames
        /\ length (csv_rows file) = length products
        /\ forall i product,
             products !! i = Some product ->
             exists row,
               csv_rows file !! i = Some row
               /\ length row = 10%nat
               /\ (forall k, k ∈ columns -> product !! k = None ->
                     read_row (csv_header file) row !! k = Some (VStr EmptyString))
               /\ (dom product ⊆ columns ->
                   forall k v, product !! k = Some v ->
                     read_row (csv_header file) row !! k = Some v)).
Proof.
  split; [now intros ->|].
  intros Hne. destruct products as [|p ps]; [congruence|].
  cbn [save_to_csv]. eexists. split; [reflexivity|]. cbn [csv_name csv_header csv_rows].
  split; [reflexivity|]. split; [reflexivity|]. split; [apply length_map|].
  intros i product Hi. exists (csv_row product).
  split; [now rewrite list_lookup_fmap, Hi|]. split; [reflexivity|].
  assert (Hcol : forall k, k ∈ columns -> In k fieldnames).
  { intros k Hk. unfold columns in Hk. apply elem_of_list_to_set in Hk.
    now apply list_elem_of_In. }
  split.
  - intros k Hk Hnone. unfold csv_row.
    rewrite read_row_lookup by auto. unfold dict_get. now rewrite Hnone.
  - intros Hdom k v Hkv. unfold csv_row.
    rewrite read_row_lookup.
    + unfold dict_get. now rewrite Hkv.
    + apply Hcol, Hdom, elem_of_dom. eauto.
Qed.

(** ** The further properties at the sample inputs *)

Lemma get_page_first_success_witness :
  get_page third_time_net sample_url 3 0 = (Some widget_page, 3%nat).
Proof.
  apply (proj2 (proj1 (get_page_first_success third_time_net sample_url 3 0)
                  widget_page 3%nat)).
  exists 2%nat. split; [lia|]. split; [|split; reflexivity].
  intros j Hj. destruct j as [|[|j]]; [reflexivity | reflexivity | lia].
Defined.




Lemma extract_products_valid_witness :
  extract_products sample_urljoin sample_repr sample_url two_selector_page
  = Ok ([kaas_record],
        [attr_contains "class" "product"; attr_contains "class" "item"])
  /\ Forall (fun r => valid_record r /\ dom r ⊆ columns) [kaas_record].
Proof.
  assert (H : extract_products sample_urljoin sample_repr sample_url two_selector_page
              = Ok ([kaas_record],
                    [attr_contains "class" "product"; attr_contains "class" "item"]))
    by (vm_compute; reflexivity).
  split; [exact H|].
  exact (extract_products_valid sample_urljoin sample_repr sample_url
           two_selector_page _ _ H).
Defined.


Lemma is_on_sale_idempotent_witness :
  is_on_sale kaas_25
  = Ok (true, <["discount_percentage" := VInt 25]> kaas_25)
  /\ is_on_sale (<["discount_percentage" := VInt 25]> kaas_25)
     = Ok (true, <["discount_percentage" := VInt 25]> kaas_25).
Proof.
  assert (H : is_on_sale kaas_25
              = Ok (true, <["discount_percentage" := VInt 25]> kaas_25))
    by (vm_compute; reflexivity).
  split; [exact H|].
  exact (is_on_sale_idempotent _ _ _ H).
Defined.


Lemma is_on_sale_case_insensitive_witness :
  kaas_upper !! "title" = Some (VStr "KAAS 25% KORTING")
  /\ sale_text kaas_upper "kaas 25% korting "
  /\ sale_text (<["title" := VStr (lower "KAAS 25% KORTING")]> kaas_upper)
       "kaas 25% korting ".
Proof.
  assert (H1 : kaas_upper !! "title" = Some (VStr "KAAS 25% KORTING"))
    by (vm_compute; reflexivity).
  assert (H2 : sale_text kaas_upper "kaas 25% korting ").
  { exists "KAAS 25% KORTING", EmptyString.
    split; [vm_compute; reflexivity|]. split; vm_compute; reflexivity. }
  split; [exact H1|]. split; [exact H2|].
  exact (proj1 (is_on_sale_case_insensitive kaas_upper _ _ H1 H2)).
Defined.

Lemma unique_by_title_distinct_witness :
  unique_by_title two_page_records [] [] = Ok [kaas_record; brood_record]
  /\ sublist [kaas_record; brood_record] two_page_records
  /\ distinct_titles [kaas_record; brood_record]
  /\ unique_by_title [kaas_record; brood_record] [] []
     = Ok [kaas_record; brood_record].
Proof.
  assert (H : unique_by_title two_page_records [] [] = Ok [kaas_record; brood_record])
    by (vm_compute; reflexivity).
  split; [exact H|].
  exact (unique_by_title_distinct _ _ H).
Defined.

Lemma unique_by_title_exceptions_witness :
  Forall hashable_title [kaas_record]
  /\ untitled_record !! "title" = None
  /\ unique_by_title ([kaas_record] ++ untitled_record :: [brood_record]) [] []
     = Raise KeyError.
Proof.
  assert (H1 : Forall hashable_title [kaas_record]).
  { repeat constructor. exists (VStr "Kaas"). split; vm_compute; reflexivity. }
  assert (H2 : untitled_record !! "title" = None) by (vm_compute; reflexivity).
  split; [exact H1|]. split; [exact H2|].
  exact (proj1 (proj2 (unique_by_title_exceptions
                         ([kaas_record] ++ untitled_record :: [brood_record]))
                  [kaas_record] untitled_record [brood_record] eq_refl H1) H2).
Defined.

Lemma find_product_pages_urls_witness :
  fst (get_page net_down (base_url +:+ "/onze-producten") default_retries 0) = None
  /\ fst (find_product_pages sample_urljoin net_down 0) = seed_urls.
Proof.
  assert (H : fst (get_page net_down (base_url +:+ "/onze-producten")
                     default_retries 0) = None) by reflexivity.
  split; [exact H|].
  exact (proj1 (proj2 (proj2 (proj2
           (find_product_pages_urls sample_urljoin net_down 0)))) H).
Defined.

Lemma scrape_urls_requests_witness :
  fst (scrape_urls sample_urljoin sample_repr widget_net [sample_url] [kaas_record] 0)
  = Ok [kaas_record; widget_record sample_url]
  /\ exists added,
       [kaas_record; widget_record sample_url] = [kaas_record] ++ added
       /\ Forall (fun r => valid_record r /\ dom r ⊆ columns) added.
Proof.
  assert (H : fst (scrape_urls sample_urljoin sample_repr widget_net
                     [sample_url] [kaas_record] 0)
              = Ok [kaas_record; widget_record sample_url])
    by (vm_compute; reflexivity).
  split; [exact H|].
  exact (proj2 (scrape_urls_requests sample_urljoin sample_repr widget_net
                  [sample_url] [kaas_record] 0) _ H).
Defined.

Lemma scrape_all_products_run_witness :
  fst (scrape_all_products sample_urljoin sample_repr widget_net 0)
  = Ok [widget_record (base_url +:+ "/onze-producten")]
  /\ distinct_titles [widget_record (base_url +:+ "/onze-producten")]
  /\ Forall (fun r => valid_record r /\ dom r ⊆ columns)
       [widget_record (base_url +:+ "/onze-producten")].
Proof.
  assert (H : fst (scrape_all_products sample_urljoin sample_repr widget_net 0)
              = Ok [widget_record (base_url +:+ "/onze-producten")])
    by (vm_compute; reflexivity).
  split; [exact H|].
  exact (proj2 (scrape_all_products_run sample_urljoin sample_repr widget_net 0) _ H).
Defined.


Lemma find_sale_products_twice_witness :
  [kaas_25] <> []
  /\ find_sale_products sample_urljoin sample_repr net_down [kaas_25] 0
     = (Ok ([<["on_sale" := VBool true]> (<["discount_percentage" := VInt 25]> kaas_25)],
            [(0%nat, <["on_sale" := VBool true]>
                       (<["discount_percentage" := VInt 25]> kaas_25))]), 0%nat)
  /\ find_sale_products sample_urljoin sample_repr net_down
       [<["on_sale" := VBool true]> (<["discount_percentage" := VInt 25]> kaas_25)] 0
     = (Ok ([<["on_sale" := VBool true]> (<["discount_percentage" := VInt 25]> kaas_25)],
            [(0%nat, <["on_sale" := VBool true]>
                       (<["discount_percentage" := VInt 25]> kaas_25))]), 0%nat).
Proof.
  assert (H1 : [kaas_25] <> []) by discriminate.
  assert (H2 : find_sale_products sample_urljoin sample_repr net_down [kaas_25] 0
     = (Ok ([<["on_sale" := VBool true]> (<["discount_percentage" := VInt 25]> kaas_25)],
            [(0%nat, <["on_sale" := VBool true]>
                       (<["discount_percentage" := VInt 25]> kaas_25))]), 0%nat))
    by (vm_compute; reflexivity).
  split; [exact H1|]. split; [exact H2|].
  exact (proj2 (proj2 (find_sale_products_twice sample_urljoin sample_repr net_down
                         _ _ _ _ _ H1 H2))).
Defined.

Lemma select_on_sale_columns_witness :
  Forall (fun r => dom r ⊆ columns) [kaas_25]
  /\ select_on_sale [kaas_25]
     = Ok ([<["on_sale" := VBool true]> (<["discount_percentage" := VInt 25]> kaas_25)],
           [(0%nat, <["on_sale" := VBool true]>
                      (<["discount_percentage" := VInt 25]> kaas_25))])
  /\ Forall (fun r => dom r ⊆ columns)
       [<["on_sale" := VBool true]> (<["discount_percentage" := VInt 25]> kaas_25)].
Proof.
  assert (H1 : Forall (fun r => dom r ⊆ columns) [kaas_25]).
  { repeat constructor. unfold kaas_25, columns, fieldnames.
    rewrite dom_insert_L, dom_empty_L. cbn [list_to_set foldr]. set_solver. }
  assert (H2 : select_on_sale [kaas_25]
     = Ok ([<["on_sale" := VBool true]> (<["discount_percentage" := VInt 25]> kaas_25)],
           [(0%nat, <["on_sale" := VBool true]>
                      (<["discount_percentage" := VInt 25]> kaas_25))]))
    by (vm_compute; reflexivity).
  split; [exact H1|]. split; [exact H2|].
  exact (proj1 (select_on_sale_columns _ _ _ H1 H2)).
Defined.

Lemma save_to_csv_rows_witness :
  [kaas_record] <> []
  /\ exists file,
       save_to_csv "20240101_120000" [kaas_record] None = Some file
       /\ csv_name file = "crisp_products_20240101_120000.csv"
       /\ csv_header file = fieldnames
       /\ length (csv_rows file) = 1%nat.
Proof.
  assert (H : [kaas_record] <> []) by discriminate.
  split; [exact H|].
  destruct (proj2 (save_to_csv_rows "20240101_120000" [kaas_record] None) H)
    as (file & Hsave & Hname & Hheader & Hlen & _).
  exists file. auto.
Defined.
